(** * A shallow embedding of [scraper.py]

    The class [WebScraper] wraps a Selenium Chrome driver, a BeautifulSoup
    parser, [numpy.random] and [time.sleep].  Those four are libraries the
    repository calls but does not define; they enter the development as
    interfaces ([Browser], [BS4]) whose operations are arbitrary, so every
    theorem about a method of [WebScraper] holds whatever the browser, the
    parser and the random generator answer.

    Methods are state transformers: a Python method call becomes a function
    from the program state (the object [self], the outside world, what has
    been printed, the time slept so far) to an outcome, a returned value or
    a raised exception, and the state left behind.  As in Python, the state
    changes made before an exception is raised are kept. *)

From Stdlib Require Import String Ascii List Bool Arith ZArith QArith Qabs Qround Lia Lqa.
From Stdlib Require Import DecimalString Sorted Permutation OrderedTypeEx.
Import ListNotations.
Local Open Scope string_scope.

(** ** Exceptions and outcomes *)

(** The exception classes the code names or can meet.  All of them derive
    from Python's [Exception], which is what the calls into Selenium,
    BeautifulSoup, numpy and [time] raise; [TimeoutException] and
    [NoSuchElementException] are subclasses of [WebDriverException].
    [OtherException] stands for any other subclass of [Exception]. *)
Inductive exn_class : Type :=
| TimeoutException
| NoSuchElementException
| WebDriverException
| AttributeError
| ValueError
| OverflowError
| OtherException.

Record exn : Type := mkExn { exn_cls : exn_class; exn_msg : string }.

(** [isinstance(e, TimeoutException)], the test of [except TimeoutException]. *)
Definition is_TimeoutException (e : exn) : bool :=
  match exn_cls e with TimeoutException => true | _ => false end.

(** [str(e)] *)
Definition str (e : exn) : string := exn_msg e.

Inductive result (A : Type) : Type :=
| Ok (a : A)
| Raise (e : exn).
Arguments Ok {A} a.
Arguments Raise {A} e.

Definition raised {A : Type} (r : result A) : bool :=
  match r with Ok _ => false | Raise _ => true end.

(** ** Python values that reach the caller of [extract_data] *)

(** BeautifulSoup stores an attribute as a string, or as a list of strings
    for the multi-valued ones ([class], [rel], ...). *)
Inductive pyval : Type :=
| PStr (s : string)
| PList (l : list string).

(** Truth value of an [Optional[str]] argument: [None] and [''] are false. *)
Definition truthy (o : option string) : bool :=
  match o with
  | None => false
  | Some s => negb (String.eqb s "")
  end.

(** ** Text helpers *)

Definition nl : string := String "010" EmptyString.

(** [str(n)] for a natural number, as [f"{len(data)}"] prints it. *)
Definition str_nat (n : nat) : string := NilEmpty.string_of_uint (Nat.to_uint n).

Definition two_digits (n : Z) : string :=
  let s := NilEmpty.string_of_uint (N.to_uint (Z.to_N n)) in
  if (n <? 10)%Z then "0" ++ s else s.

(** Nearest integer, ties to even. *)
Definition round_half_even (q : Q) : Z :=
  let n := Qnum q in
  let d := Zpos (Qden q) in
  let f := (n / d)%Z in
  let r := (2 * (n mod d))%Z in
  if (r <? d)%Z then f
  else if (d <? r)%Z then (f + 1)%Z
  else if Z.even f then f else (f + 1)%Z.

(** [f"{q:.2f}"] for a non-negative or negative duration. *)
Definition format_2f (q : Q) : string :=
  let neg := Qlt_le_dec q 0 in
  let a := round_half_even (Qabs q * 100) in
  (if neg then "-" else "") ++
  NilEmpty.string_of_uint (N.to_uint (Z.to_N (a / 100))) ++ "." ++ two_digits (a mod 100).

(** ** The browser: Selenium, webdriver-manager, [time] and [numpy.random] *)

Definition WebDriver : Type := nat.
Definition WebElement : Type := nat.

Inductive By : Type := By_NAME | By_XPATH.

Inductive optval : Type :=
| OptList (l : list string)
| OptBool (b : bool).

(** [ChromeOptions]: the command-line arguments and the experimental
    options, in the order they were added. *)
Record ChromeOptions : Type := mkOptions {
  arguments : list string;
  experimental_options : list (string * optval)
}.

(** What an explicit wait will see: the element is present after [after]
    seconds of waiting, it never becomes present, or the lookup itself fails
    with an exception other than the ignored [NoSuchElementException]. *)
Inductive presence : Type :=
| Appears (after : Q) (e : WebElement)
| Absent
| Broken (e : exn).

(** The outside world, with state [W].  Every call that can raise returns a
    [result] and the next world. *)
Class Browser (W : Type) : Type := {
  (** [ChromeDriverManager().install()]: the path of the driver binary *)
  driver_manager_install : W -> result string * W;
  (** [webdriver.Chrome(service=ChromeService(path), options=...)] *)
  chrome_new : string -> ChromeOptions -> W -> result WebDriver * W;
  (** [driver.get(url)] *)
  driver_get : WebDriver -> string -> W -> result unit * W;
  (** when [presence_of_element_located((by, value))] first succeeds *)
  first_presence : WebDriver -> By -> string -> W -> presence;
  (** [driver.find_element(by, value)] *)
  find_element : WebDriver -> By -> string -> W -> result WebElement * W;
  (** [element.clear()] *)
  element_clear : WebElement -> W -> result unit * W;
  (** [element.send_keys(text)] *)
  element_send_keys : WebElement -> string -> W -> result unit * W;
  (** [element.click()] *)
  element_click : WebElement -> W -> result unit * W;
  (** [driver.page_source] *)
  driver_page_source : WebDriver -> W -> result string * W;
  (** [driver.quit()]: the Chrome driver swallows the errors of shutting
      down, so quitting always returns *)
  driver_quit : WebDriver -> W -> W;
  (** the world after [d] seconds have passed *)
  elapse : Q -> W -> W;
  (** the generator's next sample of [[0, 1)] *)
  random_sample : W -> Q * W;
  random_sample_range : forall w, 0 <= fst (random_sample w) /\ fst (random_sample w) < 1
}.

(** ** BeautifulSoup *)

Class BS4 (Soup Tag : Type) : Type := {
  (** [BeautifulSoup(markup, features)] *)
  BeautifulSoup : string -> string -> result Soup;
  (** [soup.select(selector)]: the matching tags, in document order; an
      invalid selector raises *)
  select : Soup -> string -> result (list Tag);
  (** [tag.attrs.get(key)] *)
  tag_attr : Tag -> string -> option pyval;
  (** [tag.get_text(strip=True)] *)
  get_text_strip : Tag -> string
}.

(** [elem.get(key, default)] *)
Definition tag_get {Soup Tag : Type} `{BS4 Soup Tag} (elem : Tag) (key : string) (default : pyval) : pyval :=
  match tag_attr elem key with
  | Some v => v
  | None => default
  end.

(** ** The object and the program state *)

Record WebScraper : Type := mkWebScraper {
  driver : option WebDriver;
  headless : bool;
  window_size : string;
  session_active : bool
}.

Record State (W : Type) : Type := mkState {
  self : WebScraper;
  world : W;
  stdout : list string;
  clock : Q
}.
Arguments mkState {W} _ _ _ _.
Arguments self {W} _.
Arguments world {W} _.
Arguments stdout {W} _.
Arguments clock {W} _.

Definition set_driver (d : option WebDriver) (o : WebScraper) : WebScraper :=
  mkWebScraper d (headless o) (window_size o) (session_active o).

Definition set_session_active (b : bool) (o : WebScraper) : WebScraper :=
  mkWebScraper (driver o) (headless o) (window_size o) b.

(** ** The monad of method bodies *)

Definition M (W A : Type) : Type := State W -> result A * State W.

Definition ret {W A : Type} (a : A) : M W A := fun s => (Ok a, s).

Definition raise {W A : Type} (e : exn) : M W A := fun s => (Raise e, s).

Definition bind {W A B : Type} (m : M W A) (k : A -> M W B) : M W B :=
  fun s =>
    match m s with
    | (Ok a, s') => k a s'
    | (Raise e, s') => (Raise e, s')
    end.

Declare Scope py_scope.
Delimit Scope py_scope with py.
Notation "x <- m ;; k" := (bind m (fun x => k))
  (at level 61, m at next level, right associativity) : py_scope.
Notation "m ;; k" := (bind m (fun _ => k))
  (at level 61, right associativity) : py_scope.
Local Open Scope py_scope.

(** [try: body  except cls: handler], where [catches] is the class test. *)
Definition try_except {W A : Type} (body : M W A) (catches : exn -> bool)
    (handler : exn -> M W A) : M W A :=
  fun s =>
    match body s with
    | (Ok a, s') => (Ok a, s')
    | (Raise e, s') => if catches e then handler e s' else (Raise e, s')
    end.

(** [except Exception]: every class of [exn_class] derives from it. *)
Definition is_Exception (e : exn) : bool := true.

(** ** Durations *)

(** A duration in seconds as [time.sleep] converts it: the number of
    nanoseconds, rounded away from zero.  The arithmetic is exact; the
    program's durations are floats. *)
Definition sleep_ns (d : Q) : Z :=
  let x := d * 1000000000 in
  if Qlt_le_dec x 0 then Qfloor x else Qceiling x.

(** The longest sleep, [2^63 - 1] nanoseconds, and the most negative length
    that still converts, [- 2^63] nanoseconds. *)
Definition max_sleep : Q := 9223372036854775807 # 1000000000.
Definition min_sleep : Q := (- 9223372036854775808) # 1000000000.

Section Effects.
Context {W : Type} `{Browser W}.

Definition get_self : M W WebScraper := fun s => (Ok (self s), s).

Definition put_self (o : WebScraper) : M W unit :=
  fun s => (Ok tt, mkState o (world s) (stdout s) (clock s)).

(** [print(line)] *)
Definition print (line : string) : M W unit :=
  fun s => (Ok tt, mkState (self s) (world s) (stdout s ++ [line]) (clock s)).

(** a call into the browser that can raise *)
Definition call {A : Type} (f : W -> result A * W) : M W A :=
  fun s =>
    let (r, w) := f (world s) in
    (r, mkState (self s) w (stdout s) (clock s)).

(** a call into the browser that always returns *)
Definition effect (f : W -> W) : M W unit :=
  fun s => (Ok tt, mkState (self s) (f (world s)) (stdout s) (clock s)).

(** time passes: the world moves on and the slept time is recorded *)
Definition pass (d : Q) : M W unit :=
  fun s => (Ok tt, mkState (self s) (elapse d (world s)) (stdout s) (clock s + d)).

(** [time.sleep(d)].  The length is first converted to nanoseconds in a
    signed 64-bit integer, which raises [OverflowError] when it does not fit;
    a negative length then raises [ValueError]. *)
Definition time_sleep (d : Q) : M W unit :=
  let ns := sleep_ns d in
  if (ns <? - 9223372036854775808)%Z || (9223372036854775808 <=? ns)%Z
  then raise (mkExn OverflowError "timestamp too large to convert to C _PyTime_t")
  else if (ns <? 0)%Z
  then raise (mkExn ValueError "sleep length must be non-negative")
  else pass d.

(** A method call on [self.driver]; on [None] the attribute lookup fails. *)
Definition on_driver {A : Type} (meth : string) (f : WebDriver -> M W A) : M W A :=
  o <- get_self ;;
  match driver o with
  | Some d => f d
  | None =>
      raise (mkExn AttributeError
               ("'NoneType' object has no attribute '" ++ meth ++ "'"))
  end.

(** [WebDriverWait(driver, timeout).until(EC.presence_of_element_located((by, value)))] *)
Definition WebDriverWait_until (d : WebDriver) (timeout : Q) (by_ : By) (value : string)
  : M W WebElement :=
  fun s =>
    match first_presence d by_ value (world s) with
    | Appears after e =>
        if Qle_bool after timeout
        then (pass after ;; ret e) s
        else (pass timeout ;; raise (mkExn TimeoutException ("Message: " ++ nl))) s
    | Absent => (pass timeout ;; raise (mkExn TimeoutException ("Message: " ++ nl))) s
    | Broken e => raise e s
    end.

(** [np.random.uniform(low, high)]: [low] plus the sample's share of
    [high - low].  numpy leaves the result undefined for [high < low]. *)
Definition np_random_uniform (low high : Q) : M W Q :=
  fun s =>
    let (u, w) := random_sample (world s) in
    (Ok (low + (high - low) * u), mkState (self s) w (stdout s) (clock s)).

End Effects.

(** ** The class [WebScraper] *)

(** [WebScraper.__init__] *)
Definition __init__ (headless_ : bool) (window_size_ : string) : WebScraper :=
  {| driver := None;
     headless := headless_;
     window_size := window_size_;
     session_active := false |}.

(** The defaults of the keyword arguments. *)
Definition default_headless : bool := true.
Definition default_window_size : string := "1920,1080".
Definition default_username_field : string := "username".
Definition default_password_field : string := "password".
Definition default_submit_button : string := "//button[@type='submit']".
Definition default_wait_time : Q := 2.
Definition default_min_seconds : Q := 1.
Definition default_max_seconds : Q := 3.

Definition add_argument (a : string) (o : ChromeOptions) : ChromeOptions :=
  mkOptions (arguments o ++ [a]) (experimental_options o).

Definition add_experimental_option (k : string) (v : optval) (o : ChromeOptions)
  : ChromeOptions :=
  mkOptions (arguments o) (experimental_options o ++ [(k, v)]).

Definition user_agent : string :=
  "user-agent=Mozilla/5.0 (Windows NT 10.0; Win64; x64) AppleWebKit/537.36 " ++
  "(KHTML, like Gecko) Chrome/131.0.0.0 Safari/537.36".

(** The options [_setup_driver] builds from [self]. *)
Definition chrome_options_of (o : WebScraper) : ChromeOptions :=
  let c := mkOptions [] [] in
  let c := if headless o then add_argument "--headless" c else c in
  let c := add_argument ("--window-size=" ++ window_size o) c in
  let c := add_argument "--no-sandbox" c in
  let c := add_argument "--disable-dev-shm-usage" c in
  let c := add_argument "--disable-gpu" c in
  let c := add_argument "--disable-blink-features=AutomationControlled" c in
  let c := add_experimental_option "excludeSwitches" (OptList ["enable-logging"]) c in
  let c := add_experimental_option "useAutomationExtension" (OptBool false) c in
  add_argument user_agent c.

Section Methods.
Context {W : Type} `{Browser W}.

(** [self.driver = d] *)
Definition assign_driver (d : option WebDriver) : M W unit :=
  o <- get_self ;; put_self (set_driver d o).

(** [self.session_active = b] *)
Definition assign_session_active (b : bool) : M W unit :=
  o <- get_self ;; put_self (set_session_active b o).

(** [WebScraper._setup_driver] *)
Definition _setup_driver : M W WebDriver :=
  o <- get_self ;;
  let chrome_options := chrome_options_of o in
  path <- call driver_manager_install ;;
  driver_ <- call (chrome_new path chrome_options) ;;
  ret driver_.

(** [WebScraper.start] *)
Definition start : M W unit :=
  o <- get_self ;;
  match driver o with
  | None =>
      d <- _setup_driver ;;
      assign_driver (Some d) ;;
      print "WebDriver initialized successfully"
  | Some _ => ret tt
  end.

(** [if self.driver is None: self.start()], the first statement of
    [login] and of [scrape_page]. *)
Definition ensure_started : M W unit :=
  o <- get_self ;;
  match driver o with
  | None => start
  | Some _ => ret tt
  end.

(** The body of [login]'s outer [try], up to the pause after the click. *)
Definition login_submit (url username password username_field password_field
    submit_button : string) : M W unit :=
  print ("Navigating to login page: " ++ url) ;;
  on_driver "get" (fun d => call (driver_get d url)) ;;
  time_sleep 2 ;;
  print "Filling in credentials..." ;;
  username_input <-
    on_driver "find_element" (fun d => WebDriverWait_until d 10 By_NAME username_field) ;;
  call (element_clear username_input) ;;
  call (element_send_keys username_input username) ;;
  password_input <-
    on_driver "find_element" (fun d => call (find_element d By_NAME password_field)) ;;
  call (element_clear password_input) ;;
  call (element_send_keys password_input password) ;;
  print "Submitting login form..." ;;
  submit_btn <-
    on_driver "find_element" (fun d => call (find_element d By_XPATH submit_button)) ;;
  call (element_click submit_btn) ;;
  time_sleep 3.

(** The rest of that body: [if success_indicator: ... else: ...]. *)
Definition login_verify (success_indicator : option string) : M W bool :=
  match success_indicator with
  | Some indicator =>
      if truthy success_indicator then
        try_except
          (on_driver "find_element"
             (fun d => WebDriverWait_until d 10 By_XPATH indicator) ;;
           print "Login successful!" ;;
           assign_session_active true ;;
           ret true)
          is_TimeoutException
          (fun _ =>
             print "Login failed: success indicator not found" ;;
             ret false)
      else
        print "Login completed (no success indicator to verify)" ;;
        assign_session_active true ;;
        ret true
  | None =>
      print "Login completed (no success indicator to verify)" ;;
      assign_session_active true ;;
      ret true
  end.

(** [WebScraper.login] *)
Definition login (url username password username_field password_field
    submit_button : string) (success_indicator : option string) : M W bool :=
  ensure_started ;;
  try_except
    (login_submit url username password username_field password_field submit_button ;;
     login_verify success_indicator)
    is_Exception
    (fun e =>
       print ("Login failed with error: " ++ str e) ;;
       ret false).

(** [WebScraper.wait_random] *)
Definition wait_random (min_seconds max_seconds : Q) : M W unit :=
  wait_time <- np_random_uniform min_seconds max_seconds ;;
  print ("Waiting for " ++ format_2f wait_time ++ " seconds...") ;;
  time_sleep wait_time.

(** [WebScraper.close] *)
Definition close : M W unit :=
  o <- get_self ;;
  match driver o with
  | Some d =>
      print "Closing WebDriver..." ;;
      effect (driver_quit d) ;;
      assign_driver None ;;
      assign_session_active false
  | None => ret tt
  end.

(** [WebScraper.__enter__]; the [self] it returns is the object the state
    already holds. *)
Definition __enter__ : M W unit := start.

(** [WebScraper.__exit__(exc_type, exc_val, exc_tb)]; it returns [None]. *)
Definition __exit__ (exc : option exn) : M W unit := close.

(** [with scraper: body].  [__exit__] runs on each way out of the body; its
    [None] is false, so an exception of the body is raised again after it.
    When [__enter__] raises, the body and [__exit__] do not run. *)
Definition with_ {A : Type} (body : M W A) : M W A :=
  fun s =>
    match __enter__ s with
    | (Raise e, s1) => (Raise e, s1)
    | (Ok _, s1) =>
        match body s1 with
        | (Ok a, s2) =>
            match __exit__ None s2 with
            | (Ok _, s3) => (Ok a, s3)
            | (Raise e, s3) => (Raise e, s3)
            end
        | (Raise e, s2) =>
            match __exit__ (Some e) s2 with
            | (Ok _, s3) => (Raise e, s3)
            | (Raise e', s3) => (Raise e', s3)
            end
        end
    end.

Section Parsing.
Context {Soup Tag : Type} `{BS4 Soup Tag}.

(** a call into BeautifulSoup: it changes nothing, it returns or raises *)
Definition lift {A : Type} (r : result A) : M W A := fun s => (r, s).

(** [WebScraper.scrape_page] *)
Definition scrape_page (url : option string) (wait_time : Q) : M W Soup :=
  ensure_started ;;
  match url with
  | Some u =>
      if truthy url then
        print ("Navigating to: " ++ u) ;;
        on_driver "get" (fun d => call (driver_get d u))
      else ret tt
  | None => ret tt
  end ;;
  time_sleep wait_time ;;
  page_source <- on_driver "page_source" (fun d => call (driver_page_source d)) ;;
  try_except
    (lift (BeautifulSoup page_source "lxml"))
    is_Exception
    (fun _ => lift (BeautifulSoup page_source "html.parser")).

(** [WebScraper.extract_data] *)
Definition extract_data (soup : Soup) (selector : string)
    (attribute : option string) : M W (list pyval) :=
  elements <- lift (select soup selector) ;;
  let data :=
    match attribute with
    | Some a =>
        if truthy attribute
        then map (fun elem => tag_get elem a (PStr "")) elements
        else map (fun elem => PStr (get_text_strip elem)) elements
    | None => map (fun elem => PStr (get_text_strip elem)) elements
    end in
  print ("Extracted " ++ str_nat (length data) ++ " items using selector '"
         ++ selector ++ "'") ;;
  ret data.

End Parsing.

End Methods.

(** ** A scripted browser

    A small world to run the methods in: a driver that may fail to install,
    addresses that do not load, and elements that become present after a
    given number of seconds. *)

Record Sim : Type := mkSim {
  sim_install_error : option exn;
  sim_unreachable : list string;
  sim_elements : list (By * string * Q * WebElement);
  sim_source : string;
  sim_drivers : nat;
  sim_quit : list WebDriver;
  sim_seed : nat
}.

Definition By_eqb (a b : By) : bool :=
  match a, b with
  | By_NAME, By_NAME => true
  | By_XPATH, By_XPATH => true
  | _, _ => false
  end.

Fixpoint sim_lookup (by_ : By) (value : string)
    (l : list (By * string * Q * WebElement)) : option (Q * WebElement) :=
  match l with
  | [] => None
  | (b, v, t, e) :: l' =>
      if By_eqb b by_ && String.eqb v value then Some (t, e)
      else sim_lookup by_ value l'
  end.

Definition sim_with_elements (l : list (By * string * Q * WebElement)) (w : Sim) : Sim :=
  mkSim (sim_install_error w) (sim_unreachable w) l (sim_source w)
        (sim_drivers w) (sim_quit w) (sim_seed w).

Definition sim_install (w : Sim) : result string * Sim :=
  match sim_install_error w with
  | Some e => (Raise e, w)
  | None => (Ok "/root/.wdm/drivers/chromedriver", w)
  end.

Definition sim_chrome_new (path : string) (o : ChromeOptions) (w : Sim)
  : result WebDriver * Sim :=
  (Ok (sim_drivers w),
   mkSim (sim_install_error w) (sim_unreachable w) (sim_elements w) (sim_source w)
         (S (sim_drivers w)) (sim_quit w) (sim_seed w)).

Definition sim_get (d : WebDriver) (url : string) (w : Sim) : result unit * Sim :=
  if existsb (String.eqb url) (sim_unreachable w)
  then (Raise (mkExn WebDriverException "Message: unknown error: net::ERR_NAME_NOT_RESOLVED"), w)
  else (Ok tt, w).

Definition sim_first_presence (d : WebDriver) (by_ : By) (value : string) (w : Sim)
  : presence :=
  match sim_lookup by_ value (sim_elements w) with
  | Some (t, e) => Appears (if Qlt_le_dec t 0 then 0 else t) e
  | None => Absent
  end.

Definition sim_find_element (d : WebDriver) (by_ : By) (value : string) (w : Sim)
  : result WebElement * Sim :=
  match sim_lookup by_ value (sim_elements w) with
  | Some (t, e) =>
      if Qle_bool t 0 then (Ok e, w)
      else (Raise (mkExn NoSuchElementException "Message: no such element"), w)
  | None => (Raise (mkExn NoSuchElementException "Message: no such element"), w)
  end.

Definition sim_elapse (d : Q) (w : Sim) : Sim :=
  sim_with_elements
    (map (fun x => match x with (b, v, t, e) => (b, v, t - d, e) end) (sim_elements w)) w.

Definition sim_quit_driver (d : WebDriver) (w : Sim) : Sim :=
  mkSim (sim_install_error w) (sim_unreachable w) (sim_elements w) (sim_source w)
        (sim_drivers w) (sim_quit w ++ [d]) (sim_seed w).

Definition sim_random_sample (w : Sim) : Q * Sim :=
  (Qmake (Z.of_nat (sim_seed w mod 4)) 4%positive,
   mkSim (sim_install_error w) (sim_unreachable w) (sim_elements w) (sim_source w)
         (sim_drivers w) (sim_quit w) (S (sim_seed w))).

Definition sim_random_sample_range :
  forall w, 0 <= fst (sim_random_sample w) /\ fst (sim_random_sample w) < 1.
Proof.
  intro w. unfold sim_random_sample, Qle, Qlt. cbn [fst Qnum Qden].
  assert (sim_seed w mod 4 < 4)%nat by (apply Nat.mod_upper_bound; discriminate).
  lia.
Qed.

#[export] Instance Sim_Browser : Browser Sim := {|
  driver_manager_install := sim_install;
  chrome_new := sim_chrome_new;
  driver_get := sim_get;
  first_presence := sim_first_presence;
  find_element := sim_find_element;
  element_clear := fun _ w => (Ok tt, w);
  element_send_keys := fun _ _ w => (Ok tt, w);
  element_click := fun _ w => (Ok tt, w);
  driver_page_source := fun _ w => (Ok (sim_source w), w);
  driver_quit := sim_quit_driver;
  elapse := sim_elapse;
  random_sample := sim_random_sample;
  random_sample_range := sim_random_sample_range
|}.

(** ** A small document model

    Element trees with text leaves, as BeautifulSoup builds them.  Selectors
    are restricted to a single tag name; any other selector string is
    reported as an error. *)

#[warnings="-register-all"]
Inductive node : Type :=
| NavigableString (s : string)
| Element (name : string) (attrs : list (string * pyval)) (contents : list node).

(** [tag.descendants]: the nodes below [n], in document order. *)
Fixpoint descendants (n : node) : list node :=
  match n with
  | NavigableString _ => []
  | Element _ _ cs => flat_map (fun c => c :: descendants c) cs
  end.

Definition is_space (c : ascii) : bool :=
  let n := nat_of_ascii c in
  (n =? 32)%nat || ((9 <=? n)%nat && (n <=? 13)%nat) || ((28 <=? n)%nat && (n <=? 31)%nat).

Fixpoint lstrip (s : string) : string :=
  match s with
  | String c s' => if is_space c then lstrip s' else s
  | EmptyString => EmptyString
  end.

Fixpoint rstrip (s : string) : string :=
  match s with
  | String c s' =>
      match rstrip s' with
      | EmptyString => if is_space c then EmptyString else String c EmptyString
      | r => String c r
      end
  | EmptyString => EmptyString
  end.

(** [str.strip()] *)
Definition strip (s : string) : string := rstrip (lstrip s).

(** [tag.get_text(strip=True)]: every piece of text below the tag is
    stripped, the empty ones are dropped and the rest are joined. *)
Definition node_get_text_strip (n : node) : string :=
  String.concat ""
    (filter (fun s => negb (String.eqb s ""))
       (flat_map (fun d => match d with
                           | NavigableString s => [strip s]
                           | Element _ _ _ => []
                           end) (descendants n))).

Fixpoint assoc (k : string) (l : list (string * pyval)) : option pyval :=
  match l with
  | [] => None
  | (k', v) :: l' => if String.eqb k' k then Some v else assoc k l'
  end.

Definition node_attr (n : node) (k : string) : option pyval :=
  match n with
  | NavigableString _ => None
  | Element _ attrs _ => assoc k attrs
  end.

Definition is_name_char (c : ascii) : bool :=
  let n := nat_of_ascii c in
  ((48 <=? n)%nat && (n <=? 57)%nat) || ((65 <=? n)%nat && (n <=? 90)%nat)
  || ((97 <=? n)%nat && (n <=? 122)%nat).

Fixpoint all_name_chars (s : string) : bool :=
  match s with
  | EmptyString => true
  | String c s' => is_name_char c && all_name_chars s'
  end.

Definition has_name (name : string) (n : node) : bool :=
  match n with
  | NavigableString _ => false
  | Element nm _ _ => String.eqb nm name
  end.

Definition node_select (soup : node) (selector : string) : result (list node) :=
  if negb (String.eqb selector "") && all_name_chars selector
  then Ok (filter (has_name selector) (descendants soup))
  else Raise (mkExn OtherException ("Invalid selector: " ++ selector)).

#[export] Instance Node_BS4 (parse : string -> string -> result node) : BS4 node node := {|
  BeautifulSoup := parse;
  select := node_select;
  tag_attr := node_attr;
  get_text_strip := node_get_text_strip
|}.

(** The tree of the page of [test_beautifulsoup_usage]. *)
Definition test_page : node :=
  Element "[document]" []
    [Element "html" []
       [Element "head" [] [Element "title" [] [NavigableString "Test Page"]];
        NavigableString nl;
        Element "body" []
          [NavigableString nl;
           Element "h1" [] [NavigableString "Main Title"];
           NavigableString nl;
           Element "p" [] [NavigableString "Paragraph 1"];
           NavigableString nl;
           Element "p" [] [NavigableString "Paragraph 2"];
           NavigableString nl;
           Element "a" [("href", PStr "http://example.com")] [NavigableString "Link 1"];
           NavigableString nl;
           Element "a" [("href", PStr "http://test.com")] [NavigableString "Link 2"];
           NavigableString nl]]].

Definition test_parse (markup features : string) : result node := Ok test_page.

(** A fresh object in a world where the login form and the dashboard are
    served. *)
Definition sim_world : Sim :=
  {| sim_install_error := None;
     sim_unreachable := ["https://down.example"];
     sim_elements :=
       [(By_NAME, "username", 1, 1%nat);
        (By_NAME, "password", 0, 2%nat);
        (By_XPATH, "//button[@type='submit']", 0, 3%nat);
        (By_XPATH, "//div[@id='dashboard']", 7, 4%nat);
        (By_XPATH, "//div[@id='late']", 40, 5%nat)];
     sim_source := "<html><body><p>Paragraph 1</p><p>Paragraph 2</p></body></html>";
     sim_drivers := 0;
     sim_quit := [];
     sim_seed := 1 |}.

Definition sim_state : State Sim :=
  mkState (__init__ default_headless default_window_size) sim_world [] 0.

(** The same, with no driver to be had. *)
Definition sim_offline : State Sim :=
  mkState (__init__ default_headless default_window_size)
    (mkSim (Some (mkExn OtherException "Could not reach host. Are you offline?"))
           [] [] "" 0 [] 0)
    [] 0.

(** ** The object as a state machine

    The methods a caller can invoke, what they give back, and the states an
    object can be in after any number of calls. *)

Inductive method (Soup : Type) : Type :=
| call_start
| call_login (url username password username_field password_field
    submit_button : string) (success_indicator : option string)
| call_scrape_page (url : option string) (wait_time : Q)
| call_extract_data (soup : Soup) (selector : string) (attribute : option string)
| call_wait_random (min_seconds max_seconds : Q)
| call_close
| call_enter
| call_exit (exc : option exn).
Arguments call_start {Soup}.
Arguments call_login {Soup} _ _ _ _ _ _ _.
Arguments call_scrape_page {Soup} _ _.
Arguments call_extract_data {Soup} _ _ _.
Arguments call_wait_random {Soup} _ _.
Arguments call_close {Soup}.
Arguments call_enter {Soup}.
Arguments call_exit {Soup} _.

Inductive value (Soup : Type) : Type :=
| VNone
| VBool (b : bool)
| VSoup (soup : Soup)
| VList (l : list pyval).
Arguments VNone {Soup}.
Arguments VBool {Soup} b.
Arguments VSoup {Soup} soup.
Arguments VList {Soup} l.

Definition is_login {Soup : Type} (m : method Soup) : bool :=
  match m with
  | call_login _ _ _ _ _ _ _ => true
  | _ => false
  end.

Section Machine.
Context {W : Type} `{Browser W} {Soup Tag : Type} `{BS4 Soup Tag}.

Definition invoke (m : method Soup) : M W (value Soup) :=
  match m with
  | call_start => start ;; ret VNone
  | call_login url username password username_field password_field submit_button
      success_indicator =>
      b <- login url username password username_field password_field submit_button
             success_indicator ;;
      ret (VBool b)
  | call_scrape_page url wait_time =>
      soup <- scrape_page url wait_time ;; ret (VSoup soup)
  | call_extract_data soup selector attribute =>
      l <- extract_data soup selector attribute ;; ret (VList l)
  | call_wait_random min_seconds max_seconds =>
      wait_random min_seconds max_seconds ;; ret VNone
  | call_close => close ;; ret VNone
  | call_enter => __enter__ ;; ret VNone
  | call_exit exc => __exit__ exc ;; ret VNone
  end.

(** The states of an object built by [__init__] and then used through its
    methods only. *)
Inductive reachable : State W -> Prop :=
| reachable_init : forall headless_ window_size_ w out t,
    reachable (mkState (__init__ headless_ window_size_) w out t)
| reachable_call : forall s m,
    reachable s -> reachable (snd (invoke m s)).

(** Started, and the two sub-states of started. *)
Definition started (s : State W) : bool :=
  match driver (self s) with Some _ => true | None => false end.

Definition authenticated (s : State W) : bool := session_active (self s).

End Machine.

(** The state a [print] leaves. *)
Definition printed {W : Type} (line : string) (s : State W) : State W :=
  mkState (self s) (world s) (stdout s ++ [line]) (clock s).

(** The condition of [login]'s second wait: the element located by
    [indicator] is present within [bound] seconds. *)
Definition appears_within {W : Type} `{Browser W} (bound : Q) (indicator : string)
    (s : State W) : Prop :=
  exists d t e,
    driver (self s) = Some d /\
    first_presence d By_XPATH indicator (world s) = Appears t e /\
    t <= bound.

(** Its failure: the element never appears, or only after the bound. *)
Definition missing_within {W : Type} `{Browser W} (bound : Q) (indicator : string)
    (s : State W) : Prop :=
  exists d,
    driver (self s) = Some d /\
    (first_presence d By_XPATH indicator (world s) = Absent \/
     exists t e, first_presence d By_XPATH indicator (world s) = Appears t e /\ bound < t).

(** [m] leaves the object as it found it, whether it returns or raises. *)
Definition self_kept {W A : Type} (m : M W A) : Prop :=
  forall s, self (snd (m s)) = self s.

(** The state in which the wait for the success indicator has run out. *)
Definition timed_out {W : Type} `{Browser W} (s : State W) : State W :=
  mkState (self s) (elapse 10 (world s))
    (stdout s ++ ["Login failed: success indicator not found"]) (clock s + 10).

(** The state in which [login] has announced success after [t] more seconds. *)
Definition logged_in {W : Type} `{Browser W} (line : string) (t : Q) (s : State W)
  : State W :=
  mkState (set_session_active true (self s)) (elapse t (world s))
    (stdout s ++ [line]) (clock s + t).

(** The line [extract_data] prints. *)
Definition extracted_line (n : nat) (selector : string) : string :=
  "Extracted " ++ str_nat n ++ " items using selector '" ++ selector ++ "'".

(** Concrete runs: the login page of the scripted browser, the session once
    started, and the session once the form has been submitted. *)
Definition sim_login_url : string := "https://example.com/login".

Definition sim_login (url : string) (success_indicator : option string) : M Sim bool :=
  login url "user" "secret" default_username_field default_password_field
    default_submit_button success_indicator.

Definition sim_started : State Sim := snd (start sim_state).

Definition sim_submitted : State Sim :=
  snd (login_submit sim_login_url "user" "secret" default_username_field
         default_password_field default_submit_button sim_started).

(** The two [<p>] elements and the two [<a>] elements of [test_page]. *)
Definition test_p1 : node := Element "p" [] [NavigableString "Paragraph 1"].
Definition test_p2 : node := Element "p" [] [NavigableString "Paragraph 2"].
Definition test_a1 : node :=
  Element "a" [("href", PStr "http://example.com")] [NavigableString "Link 1"].
Definition test_a2 : node :=
  Element "a" [("href", PStr "http://test.com")] [NavigableString "Link 2"].

(** ** numpy arrays of strings *)

(** [s * n] *)
Fixpoint str_repeat (s : string) (n : nat) : string :=
  match n with
  | O => ""
  | S n' => s ++ str_repeat s n'
  end.

(** A string as an element of a numpy array of strings: the fixed-width
    storage drops the NUL characters at its end. *)
Fixpoint np_str (s : string) : string :=
  match s with
  | String c s' =>
      match np_str s' with
      | EmptyString => if Ascii.eqb c zero then EmptyString else String c EmptyString
      | r => String c r
      end
  | EmptyString => EmptyString
  end.

(** [np.array(data)] for a list of strings *)
Definition np_array (data : list string) : list string := map np_str data.

(** [x] put in its place in a list kept in increasing order without
    repetition *)
Fixpoint insert_unique (x : string) (l : list string) : list string :=
  match l with
  | [] => [x]
  | y :: r =>
      match String.compare x y with
      | Lt => x :: y :: r
      | Eq => y :: r
      | Gt => y :: insert_unique x r
      end
  end.

(** [np.unique(arr)]: the sorted unique elements *)
Definition np_unique (arr : list string) : list string :=
  fold_right insert_unique [] arr.

(** The string an entry of a text request is. *)
Definition as_str (v : pyval) : string :=
  match v with
  | PStr s => s
  | PList l => String.concat "" l
  end.

(** [range(start, stop)] *)
Definition range (start stop : nat) : list nat := seq start (stop - start).

Section Callers.
Context {W : Type} `{Browser W}.

(** [WebScraper.process_data_with_numpy] *)
Definition process_data_with_numpy (data : list string) : M W (list string) :=
  let arr := np_array data in
  let unique_values := np_unique arr in
  print ("Found " ++ str_nat (length unique_values) ++ " unique values out of "
         ++ str_nat (length arr) ++ " total items") ;;
  ret arr.

(** [scraper = WebScraper(headless=..., window_size=...)]: the object of the
    state is a new one. *)
Definition construct (headless_ : bool) (window_size_ : string) : M W unit :=
  put_self (__init__ headless_ window_size_).

(** [for x in l: body] *)
Fixpoint for_each {A : Type} (l : list A) (body : A -> M W unit) : M W unit :=
  match l with
  | [] => ret tt
  | x :: l' => body x ;; for_each l' body
  end.

(** [try: body  except Exception as e: print(f"{label} error: {e}")], the
    two statements of [main] in [example.py]. *)
Definition guarded_example (label : string) (body : M W unit) : M W unit :=
  try_except body is_Exception (fun e => print (label ++ " error: " ++ str e)).

(** [main] of [example.py].  Its two examples compute statistics in floating
    point and read the wall clock; they are taken as they come. *)
Definition example_main (example_without_login example_advanced_extraction : M W unit)
  : M W unit :=
  print (nl ++ str_repeat "=" 60) ;;
  print "SELENIUM WEB SCRAPING TEMPLATE - EXAMPLES" ;;
  print (str_repeat "=" 60) ;;
  guarded_example "Example 1" example_without_login ;;
  guarded_example "Example 2" example_advanced_extraction ;;
  print (nl ++ str_repeat "=" 60) ;;
  print "Examples completed!" ;;
  print (str_repeat "=" 60).

(** [results.append((name, test()))] for each test in turn *)
Fixpoint run_tests (tests : list (string * M W bool)) : M W (list (string * bool)) :=
  match tests with
  | [] => ret []
  | (name, test) :: tests' =>
      result <- test ;;
      results <- run_tests tests' ;;
      ret ((name, result) :: results)
  end.

(** [sum(1 for _, result in results if result)] *)
Definition count_passed (results : list (string * bool)) : nat :=
  length (filter (fun r => snd r) results).

(** [main] of [test_template.py], given its six checks; they inspect the
    Python installation and the file system.  The value is the exit code. *)
Definition test_template_main (test_imports test_class_structure test_method_signatures
    test_features test_numpy_usage test_beautifulsoup_usage : M W bool) : M W Z :=
  print (str_repeat "=" 60) ;;
  print "WEB SCRAPING TEMPLATE VERIFICATION" ;;
  print (str_repeat "=" 60) ;;
  results <- run_tests
    [("Imports", test_imports);
     ("Class Structure", test_class_structure);
     ("Method Signatures", test_method_signatures);
     ("Features", test_features);
     ("NumPy Integration", test_numpy_usage);
     ("BeautifulSoup Integration", test_beautifulsoup_usage)] ;;
  print (nl ++ str_repeat "=" 60) ;;
  print "VERIFICATION SUMMARY" ;;
  print (str_repeat "=" 60) ;;
  let passed := count_passed results in
  let total := length results in
  for_each results
    (fun r => let status := if snd r then "✓ PASS" else "✗ FAIL" in
              print (status ++ ": " ++ fst r)) ;;
  print (nl ++ "Total: " ++ str_nat passed ++ "/" ++ str_nat total ++ " tests passed") ;;
  if Nat.eqb passed total then
    print (nl ++ "🎉 All verification tests passed!") ;;
    print "The web scraping template is ready to use." ;;
    ret 0%Z
  else
    print (nl ++ "⚠️  " ++ str_nat (total - passed) ++ " test(s) failed.") ;;
    ret 1%Z.

Section CallersParsing.
Context {Soup Tag : Type} `{BS4 Soup Tag}.

(** The body of the [with] statement of [main] in [scraper.py]. *)
Definition scraper_main_body : M W unit :=
  soup <- scrape_page (Some "https://example.com") default_wait_time ;;
  paragraphs <- extract_data soup "p" None ;;
  print (nl ++ "Extracted " ++ str_nat (length paragraphs) ++ " paragraphs") ;;
  match paragraphs with
  | _ :: _ =>
      arr <- process_data_with_numpy (map as_str paragraphs) ;;
      print ("Data array shape: (" ++ str_nat (length arr) ++ ",)")
  | [] => ret tt
  end ;;
  wait_random 1 2.

(** [main] of [scraper.py] *)
Definition scraper_main : M W unit :=
  print (str_repeat "=" 50) ;;
  print "Example 1: Basic Web Scraping" ;;
  print (str_repeat "=" 50) ;;
  construct true default_window_size ;;
  with_ scraper_main_body.

(** The body of the loop of [example_with_login]. *)
Definition process_page (page_num : nat) : M W unit :=
  print (nl ++ "Processing page " ++ str_nat page_num ++ "...") ;;
  let url := "https://example.com/data?page=" ++ str_nat page_num in
  soup <- scrape_page (Some url) default_wait_time ;;
  items <- extract_data soup "div.item" None ;;
  print ("Found " ++ str_nat (length items) ++ " items on page " ++ str_nat page_num) ;;
  wait_random 2 4.

(** What [example_with_login] does once [login] has returned true. *)
Definition scrape_protected : M W unit :=
  print "✓ Login successful!" ;;
  soup <- scrape_page (Some "https://example.com/protected-page") default_wait_time ;;
  data <- extract_data soup "div.content" None ;;
  print (nl ++ "Extracted " ++ str_nat (length data) ++ " items from protected page") ;;
  for_each (range 1 4) process_page.

(** [example_with_login] of [example.py] *)
Definition example_with_login : M W unit :=
  print (nl ++ str_repeat "=" 60) ;;
  print "Example: Scraping with Login (Template)" ;;
  print (str_repeat "=" 60) ;;
  print (nl ++ "This example demonstrates the login workflow.") ;;
  print ("Replace the URL and credentials with your actual website." ++ nl) ;;
  construct true default_window_size ;;
  start ;;
  print "Attempting to log in..." ;;
  login_success <-
    login "https://example.com/login" "your_username" "your_password"
      "username" "password" "//button[@type='submit']"
      (Some "//div[@class='dashboard']") ;;
  (if login_success : bool then scrape_protected else print "✗ Login failed!") ;;
  close.

End CallersParsing.

End Callers.

(** The relation between the object before and after a call that may start
    the session but does nothing else to it: the configuration is the same
    and a driver handle that was there is still there. *)
Definition evolves (o o' : WebScraper) : Prop :=
  headless o' = headless o /\
  window_size o' = window_size o /\
  (forall d, driver o = Some d -> driver o' = Some d).

(** [m] takes the object to one related to it by [R]. *)
Definition self_rel {W A : Type} (R : WebScraper -> WebScraper -> Prop) (m : M W A) : Prop :=
  forall s, R (self s) (self (snd (m s))).

(** The methods that end the session. *)
Definition is_close {Soup : Type} (m : method Soup) : bool :=
  match m with
  | call_close | call_exit _ => true
  | _ => false
  end.

(** The state with another world. *)
Definition with_world {W : Type} (w : W) (s : State W) : State W :=
  mkState (self s) w (stdout s) (clock s).

(** The state after some lines have been printed. *)
Definition printed_all {W : Type} (lines : list string) (s : State W) : State W :=
  mkState (self s) (world s) (stdout s ++ lines) (clock s).

(** The state after some lines have been printed and a new object built,
    [WebScraper(headless=True)]. *)
Definition new_session {W : Type} (lines : list string) (s : State W) : State W :=
  mkState (__init__ true default_window_size) (world s) (stdout s ++ lines) (clock s).

(** What [main] of [scraper.py] prints before it builds its object. *)
Definition scraper_main_banner : list string :=
  [str_repeat "=" 50; "Example 1: Basic Web Scraping"; str_repeat "=" 50].

(** What [example_with_login] prints before it builds its object. *)
Definition example_with_login_banner : list string :=
  [nl ++ str_repeat "=" 60;
   "Example: Scraping with Login (Template)";
   str_repeat "=" 60;
   nl ++ "This example demonstrates the login workflow.";
   "Replace the URL and credentials with your actual website." ++ nl].

(** The first and the last lines of [main] of [example.py], and the first
    lines of [main] of [test_template.py]. *)
Definition example_main_banner : list string :=
  [nl ++ str_repeat "=" 60; "SELENIUM WEB SCRAPING TEMPLATE - EXAMPLES"; str_repeat "=" 60].

Definition example_main_footer : list string :=
  [nl ++ str_repeat "=" 60; "Examples completed!"; str_repeat "=" 60].

Definition test_template_banner : list string :=
  [str_repeat "=" 60; "WEB SCRAPING TEMPLATE VERIFICATION"; str_repeat "=" 60].

(** The call of [login] in [example_with_login]. *)
Definition example_login {W : Type} `{Browser W} : M W bool :=
  login "https://example.com/login" "your_username" "your_password"
    "username" "password" "//button[@type='submit']"
    (Some "//div[@class='dashboard']").

(** The relation between the object before and after a call that may start
    the session but does not authenticate it. *)
Definition settled (o o' : WebScraper) : Prop :=
  evolves o o' /\ session_active o' = session_active o.

(** A scripted site for [example_with_login]: the form and the dashboard are
    served, the listed addresses do not load. *)
Definition sim_site (dashboard : Q) (unreachable : list string) : Sim :=
  {| sim_install_error := None;
     sim_unreachable := unreachable;
     sim_elements :=
       [(By_NAME, "username", 0, 1%nat);
        (By_NAME, "password", 0, 2%nat);
        (By_XPATH, "//button[@type='submit']", 0, 3%nat);
        (By_XPATH, "//div[@class='dashboard']", dashboard, 4%nat)];
     sim_source := "<html><body><p>Paragraph 1</p><p>Paragraph 2</p></body></html>";
     sim_drivers := 0;
     sim_quit := [];
     sim_seed := 2 |}.

Definition sim_site_state (dashboard : Q) (unreachable : list string) : State Sim :=
  mkState (__init__ false "800,600") (sim_site dashboard unreachable) [] 0.

(** * Properties *)

(** ** How the effects treat [self] *)

Section SelfKept.
Context {W : Type} `{Browser W}.

Lemma self_kept_ret {A : Type} (a : A) : self_kept (W:=W) (ret (W:=W) a).
Proof. intro s. reflexivity. Qed.

Lemma self_kept_raise {A : Type} (e : exn) : self_kept (W:=W) (raise (W:=W) (A:=A) e).
Proof. intro s. reflexivity. Qed.

Lemma self_kept_get_self : self_kept (W:=W) get_self.
Proof. intro s. reflexivity. Qed.

Lemma self_kept_print (line : string) : self_kept (W:=W) (print line).
Proof. intro s. reflexivity. Qed.

Lemma self_kept_call {A : Type} (f : W -> result A * W) : self_kept (W:=W) (call f).
Proof. intro s. unfold call. destruct (f (world s)). reflexivity. Qed.

Lemma self_kept_effect (f : W -> W) : self_kept (W:=W) (effect f).
Proof. intro s. reflexivity. Qed.

Lemma self_kept_pass (d : Q) : self_kept (W:=W) (pass d).
Proof. intro s. reflexivity. Qed.

Lemma self_kept_lift {A : Type} (r : result A) : self_kept (W:=W) (lift (W:=W) r).
Proof. intro s. reflexivity. Qed.

Lemma self_kept_bind {A B : Type} (m : M W A) (k : A -> M W B) :
  self_kept (W:=W) m -> (forall a, self_kept (W:=W) (k a)) -> self_kept (W:=W) (bind m k).
Proof.
  intros Hm Hk s. unfold bind. specialize (Hm s).
  destruct (m s) as [[a | e] s']; simpl in *.
  - rewrite Hk. exact Hm.
  - exact Hm.
Qed.

Lemma self_kept_try_except {A : Type} (body : M W A) (catches : exn -> bool)
    (handler : exn -> M W A) :
  self_kept (W:=W) body -> (forall e, self_kept (W:=W) (handler e)) ->
  self_kept (W:=W) (try_except body catches handler).
Proof.
  intros Hb Hh s. unfold try_except. specialize (Hb s).
  destruct (body s) as [[a | e] s']; simpl in *.
  - exact Hb.
  - destruct (catches e); simpl.
    + rewrite Hh. exact Hb.
    + exact Hb.
Qed.

Lemma self_kept_time_sleep (d : Q) : self_kept (W:=W) (time_sleep d).
Proof.
  unfold time_sleep.
  destruct ((sleep_ns d <? - 9223372036854775808)%Z
            || (9223372036854775808 <=? sleep_ns d)%Z).
  - apply self_kept_raise.
  - destruct (sleep_ns d <? 0)%Z.
    + apply self_kept_raise.
    + apply self_kept_pass.
Qed.

Lemma self_kept_on_driver {A : Type} (meth : string) (f : WebDriver -> M W A) :
  (forall d, self_kept (W:=W) (f d)) -> self_kept (W:=W) (on_driver meth f).
Proof.
  intros Hf s. unfold on_driver, bind, get_self.
  destruct (driver (self s)).
  - apply Hf.
  - reflexivity.
Qed.

Lemma self_kept_WebDriverWait_until (d : WebDriver) (timeout : Q) (by_ : By)
    (value : string) :
  self_kept (W:=W) (WebDriverWait_until d timeout by_ value).
Proof.
  intro s. unfold WebDriverWait_until.
  destruct (first_presence d by_ value (world s)) as [after e | | e].
  - destruct (Qle_bool after timeout); reflexivity.
  - reflexivity.
  - reflexivity.
Qed.

Lemma self_kept_np_random_uniform (low high : Q) : self_kept (W:=W) (np_random_uniform low high).
Proof.
  intro s. unfold np_random_uniform. destruct (random_sample (world s)). reflexivity.
Qed.

End SelfKept.

Create HintDb kept.
#[export] Hint Resolve self_kept_ret self_kept_raise self_kept_get_self self_kept_print self_kept_call
  self_kept_effect self_kept_pass self_kept_lift self_kept_time_sleep
  self_kept_WebDriverWait_until self_kept_np_random_uniform : kept.
#[export] Hint Extern 2 (self_kept (bind _ _)) =>
  apply self_kept_bind; [ | intro ] : kept.
#[export] Hint Extern 2 (self_kept (on_driver _ _)) =>
  apply self_kept_on_driver; intro : kept.
#[export] Hint Extern 2 (self_kept (try_except _ _ _)) =>
  apply self_kept_try_except; [ | intro ] : kept.

(** ** Sleeping *)

Section Sleeping.
Context {W : Type} `{Browser W}.

Lemma sleep_ns_nonneg (t : Q) : 0 <= t -> (0 <= sleep_ns t)%Z.
Proof.
  intro Ht. unfold sleep_ns.
  destruct (Qlt_le_dec (t * 1000000000) 0) as [Hneg | Hpos].
  - exfalso. nra.
  - rewrite Zle_Qle. eapply Qle_trans; [exact Hpos | apply Qle_ceiling].
Qed.

Lemma sleep_ns_negative (t : Q) : t < 0 -> (sleep_ns t < 0)%Z.
Proof.
  intro Ht. unfold sleep_ns.
  destruct (Qlt_le_dec (t * 1000000000) 0) as [Hneg | Hpos].
  - rewrite Zlt_Qlt. eapply Qle_lt_trans; [apply Qfloor_le | exact Hneg].
  - exfalso. nra.
Qed.

Lemma sleep_ns_fits (t : Q) :
  0 <= t -> t <= max_sleep -> (sleep_ns t <= 9223372036854775807)%Z.
Proof.
  intros Ht Hmax. unfold sleep_ns.
  destruct (Qlt_le_dec (t * 1000000000) 0) as [Hneg | Hpos].
  - exfalso. nra.
  - rewrite <- (Qceiling_Z 9223372036854775807). apply Qceiling_resp_le.
    unfold max_sleep in Hmax. unfold Qle in *. simpl in *. lia.
Qed.

Lemma sleep_ns_too_long (t : Q) :
  max_sleep < t -> (9223372036854775808 <= sleep_ns t)%Z.
Proof.
  intro Hmax. unfold sleep_ns.
  assert (Hx : inject_Z 9223372036854775807 < t * 1000000000).
  { unfold max_sleep in Hmax. unfold Qlt in *. simpl in *. lia. }
  destruct (Qlt_le_dec (t * 1000000000) 0) as [Hneg | Hpos].
  - exfalso. apply (Qlt_irrefl 0).
    apply Qlt_trans with (inject_Z 9223372036854775807); [reflexivity | ].
    eapply Qlt_trans; eassumption.
  - assert (Hc : (9223372036854775807 < Qceiling (t * 1000000000))%Z).
    { rewrite Zlt_Qlt. eapply Qlt_le_trans; [exact Hx | apply Qle_ceiling]. }
    lia.
Qed.

Lemma sleep_ns_converts (t : Q) :
  t < 0 -> min_sleep <= t -> (- 9223372036854775808 <= sleep_ns t)%Z.
Proof.
  intros Ht Hmin. unfold sleep_ns.
  destruct (Qlt_le_dec (t * 1000000000) 0) as [Hneg | Hpos].
  - rewrite <- (Qfloor_Z (- 9223372036854775808)). apply Qfloor_resp_le.
    unfold min_sleep in Hmin. unfold Qle in *. simpl in *. lia.
  - exfalso. nra.
Qed.

(** A length that [time.sleep] accepts: the call returns, the time has
    passed. *)
Lemma time_sleep_run (t : Q) (s : State W) :
  0 <= t -> t <= max_sleep ->
  time_sleep t s =
    (Ok tt, mkState (self s) (elapse t (world s)) (stdout s) (clock s + t)).
Proof.
  intros Ht Hmax. unfold time_sleep.
  pose proof (sleep_ns_nonneg t Ht). pose proof (sleep_ns_fits t Ht Hmax).
  replace (sleep_ns t <? - 9223372036854775808)%Z with false
    by (symmetry; apply Z.ltb_ge; lia).
  replace (9223372036854775808 <=? sleep_ns t)%Z with false
    by (symmetry; apply Z.leb_gt; lia).
  replace (sleep_ns t <? 0)%Z with false by (symmetry; apply Z.ltb_ge; lia).
  reflexivity.
Qed.

(** A negative length that converts: [ValueError]. *)
Lemma time_sleep_negative (t : Q) (s : State W) :
  t < 0 -> min_sleep <= t ->
  time_sleep t s = (Raise (mkExn ValueError "sleep length must be non-negative"), s).
Proof.
  intros Ht Hmin. unfold time_sleep.
  pose proof (sleep_ns_negative t Ht). pose proof (sleep_ns_converts t Ht Hmin).
  replace (sleep_ns t <? - 9223372036854775808)%Z with false
    by (symmetry; apply Z.ltb_ge; lia).
  replace (9223372036854775808 <=? sleep_ns t)%Z with false
    by (symmetry; apply Z.leb_gt; lia).
  replace (sleep_ns t <? 0)%Z with true by (symmetry; apply Z.ltb_lt; lia).
  reflexivity.
Qed.

(** A length that is negative or too long: the call raises and nothing has
    happened. *)
Lemma time_sleep_refused (t : Q) (s : State W) :
  t < 0 \/ max_sleep < t ->
  exists e, time_sleep t s = (Raise e, s).
Proof.
  intros [Ht | Ht]; unfold time_sleep.
  - pose proof (sleep_ns_negative t Ht).
    destruct ((sleep_ns t <? - 9223372036854775808)%Z
              || (9223372036854775808 <=? sleep_ns t)%Z).
    + eexists. reflexivity.
    + replace (sleep_ns t <? 0)%Z with true by (symmetry; apply Z.ltb_lt; lia).
      eexists. reflexivity.
  - pose proof (sleep_ns_too_long t Ht).
    replace (9223372036854775808 <=? sleep_ns t)%Z with true
      by (symmetry; apply Z.leb_le; lia).
    rewrite orb_true_r. eexists. reflexivity.
Qed.

End Sleeping.

Section Lifecycle.
Context {W : Type} `{Browser W}.

Lemma login_submit_self_kept url username password username_field password_field
    submit_button :
  self_kept (login_submit url username password username_field password_field
               submit_button).
Proof. unfold login_submit. auto 40 with kept. Qed.

Lemma wait_random_self_kept lo hi : self_kept (wait_random lo hi).
Proof. unfold wait_random. auto 20 with kept. Qed.

(** [_setup_driver] reads the object and does not write it. *)
Lemma _setup_driver_self_kept : self_kept _setup_driver.
Proof. unfold _setup_driver. auto 20 with kept. Qed.

(** The three ways a call of [start] can go. *)
Lemma start_cases (s : State W) :
  (exists d, driver (self s) = Some d /\ start s = (Ok tt, s)) \/
  (driver (self s) = None /\
   exists e s', start s = (Raise e, s') /\ _setup_driver s = (Raise e, s') /\
                self s' = self s) \/
  (driver (self s) = None /\
   exists d s', start s = (Ok tt, printed "WebDriver initialized successfully" s') /\
                _setup_driver s = (Ok d, mkState (self s) (world s') (stdout s') (clock s')) /\
                self s' = set_driver (Some d) (self s)).
Proof.
  unfold start, bind, get_self.
  destruct (driver (self s)) as [d | ] eqn:Hd.
  - left. exists d. split; reflexivity.
  - right. pose proof (_setup_driver_self_kept s) as Hk.
    destruct (_setup_driver s) as [[d | e] s1] eqn:Hs; simpl in Hk.
    + right. split; [reflexivity | ].
      exists d, (mkState (set_driver (Some d) (self s1)) (world s1) (stdout s1) (clock s1)).
      simpl. rewrite Hk. repeat split.
      destruct s1 as [o w out t]. simpl in *. subst o. reflexivity.
    + left. split; [reflexivity | ].
      exists e, s1. repeat split. exact Hk.
Qed.

(** The guard of [login] and [scrape_page] is [start] under another name. *)
Lemma ensure_started_start (s : State W) : ensure_started s = start s.
Proof.
  unfold ensure_started, bind, get_self.
  destruct (driver (self s)) as [d | ] eqn:Hd.
  - unfold start, bind, get_self. rewrite Hd. reflexivity.
  - reflexivity.
Qed.

(** After [start] has returned there is a driver. *)
Lemma start_ok_started (s s0 : State W) :
  start s = (Ok tt, s0) ->
  exists d, driver (self s0) = Some d /\
            session_active (self s0) = session_active (self s).
Proof.
  intro Hs. destruct (start_cases s) as [(d & Hd & E) | [(Hd & e & s' & E & _) | (Hd & d & s' & E & _ & Hself)]];
    rewrite E in Hs; inversion Hs; subst.
  - exists d. split; [exact Hd | reflexivity].
  - exists d. simpl. rewrite Hself. split; reflexivity.
Qed.

Lemma start_raise_stopped (s s' : State W) (e : exn) :
  start s = (Raise e, s') -> driver (self s) = None /\ self s' = self s.
Proof.
  intro Hs. destruct (start_cases s) as [(d & Hd & E) | [(Hd & e' & s1 & E & _ & Hk) | (Hd & d & s1 & E & _)]];
    rewrite E in Hs; inversion Hs; subst.
  split; assumption.
Qed.

(** Whatever [start] does, it leaves the flag alone and keeps a driver that
    is there. *)
Lemma start_flag (s : State W) :
  session_active (self (snd (start s))) = session_active (self s) /\
  (driver (self s) <> None -> driver (self (snd (start s))) <> None).
Proof.
  destruct (start_cases s) as [(d & Hd & E) | [(Hd & e' & s1 & E & _ & Hk) | (Hd & d & s1 & E & _ & Hk)]];
    rewrite E; simpl.
  - split; auto.
  - rewrite Hk. split; auto.
  - rewrite Hk. simpl. split; [reflexivity | discriminate].
Qed.

(** The two ways a call of [close] can go; it never raises. *)
Lemma close_cases (s : State W) :
  (driver (self s) = None /\ close s = (Ok tt, s)) \/
  (exists d, driver (self s) = Some d /\
     close s =
       (Ok tt,
        mkState (set_session_active false (set_driver None (self s)))
                (driver_quit d (world s))
                (stdout s ++ ["Closing WebDriver..."])
                (clock s))).
Proof.
  unfold close, bind, get_self.
  destruct (driver (self s)) as [d | ] eqn:Hd.
  - right. exists d. split; reflexivity.
  - left. split; reflexivity.
Qed.

Lemma close_stopped (s : State W) :
  fst (close s) = Ok tt /\ driver (self (snd (close s))) = None.
Proof.
  destruct (close_cases s) as [(Hd & E) | (d & Hd & E)]; rewrite E; simpl; auto.
Qed.

End Lifecycle.

(** ** Driver Session *)

Section Session.
Context {W : Type} `{Browser W}.

Lemma close_twice (s : State W) : (close ;; close) s = close s.
Proof.
  unfold bind at 1.
  destruct (close_cases s) as [(Hd & E) | (d & Hd & E)]; rewrite E.
  - exact E.
  - destruct (close_cases
      (mkState (set_session_active false (set_driver None (self s)))
         (driver_quit d (world s)) (stdout s ++ ["Closing WebDriver..."]) (clock s)))
      as [(_ & E') | (d' & Hd' & _)].
    + exact E'.
    + simpl in Hd'. discriminate.
Qed.

Lemma start_twice (s : State W) : (start ;; start) s = start s.
Proof.
  unfold bind at 1.
  destruct (start s) as [[[] | e] s0] eqn:E.
  - destruct (start_ok_started s s0 E) as (d & Hd & _).
    destruct (start_cases s0) as [(d' & _ & E') | [(Hn & _) | (Hn & _)]].
    + exact E'.
    + rewrite Hn in Hd. discriminate.
    + rewrite Hn in Hd. discriminate.
  - reflexivity.
Qed.

(** C6.  [start] on a started session changes nothing: the handle, the
    world and the output are the ones before the call.  [close] on a started
    session quits the driver, drops the handle and sets [session_active] to
    false; [close] on a session with no handle changes nothing and returns.
    Hence calling either method twice in a row is calling it once. *)
Theorem C6_start_close_idempotent (s : State W) :
  (forall d, driver (self s) = Some d -> start s = (Ok tt, s)) /\
  (forall d, driver (self s) = Some d ->
     fst (close s) = Ok tt /\
     driver (self (snd (close s))) = None /\
     session_active (self (snd (close s))) = false /\
     world (snd (close s)) = driver_quit d (world s)) /\
  (driver (self s) = None -> close s = (Ok tt, s)) /\
  (start ;; start) s = start s /\
  (close ;; close) s = close s.
Proof.
  repeat split.
  - intros d Hd.
    destruct (start_cases s) as [(d' & _ & E) | [(Hn & _) | (Hn & _)]];
      [exact E | congruence | congruence].
  - apply close_stopped.
  - apply close_stopped.
  - destruct (close_cases s) as [(Hn & _) | (d' & _ & E)]; [congruence | ].
    rewrite E. reflexivity.
  - destruct (close_cases s) as [(Hn & _) | (d' & Hd' & E)]; [congruence | ].
    rewrite E. simpl. congruence.
  - intro Hn.
    destruct (close_cases s) as [(_ & E) | (d' & Hd' & _)]; [exact E | congruence].
  - apply start_twice.
  - apply close_twice.
Qed.

(** C7.  Whatever the body of [with scraper: ...] does, and whether it
    returns or raises, the session has no driver handle once the statement is
    over.  When [__enter__] returns, the session is started for the body, the
    statement gives the body's outcome (its value, or its exception raised
    again) and leaves the state [close] makes of the body's final state.  When
    [__enter__] raises, the statement raises the same exception and nothing
    was started. *)
Theorem C7_scope_always_closes {A : Type} (body : M W A) (s : State W) :
  driver (self (snd (with_ body s))) = None /\
  (forall s1, __enter__ s = (Ok tt, s1) ->
     started s1 = true /\
     fst (with_ body s) = fst (body s1) /\
     snd (with_ body s) = snd (close (snd (body s1)))) /\
  (forall e s1, __enter__ s = (Raise e, s1) ->
     with_ body s = (Raise e, s1) /\ driver (self s1) = None).
Proof.
  unfold with_, __exit__.
  destruct (__enter__ s) as [[[] | e] s1] eqn:E; unfold __enter__ in E.
  - assert (Hout : forall r : result A * State W,
              driver (self (snd
                (match r with
                 | (Ok a, s2) =>
                     match close s2 with
                     | (Ok _, s3) => (Ok a, s3)
                     | (Raise e, s3) => (Raise e, s3)
                     end
                 | (Raise e, s2) =>
                     match close s2 with
                     | (Ok _, s3) => (Raise e, s3)
                     | (Raise e', s3) => (Raise e', s3)
                     end
                 end))) = None).
    { intros [[a | e] s2]; pose proof (close_stopped s2) as [_ Hc];
        destruct (close s2) as [[[] | e'] s3]; exact Hc. }
    split; [apply Hout | split].
    + intros s1' Heq. inversion Heq; subst s1'.
      destruct (start_ok_started s s1 E) as (d & Hd & _).
      split; [unfold started; rewrite Hd; reflexivity | ].
      destruct (body s1) as [[a | e] s2]; cbn [fst snd];
        pose proof (close_stopped s2) as [Hc _];
        destruct (close s2) as [[[] | e'] s3]; cbn [fst snd] in *;
        try discriminate; split; reflexivity.
    + intros e s1' Heq. discriminate.
  - destruct (start_raise_stopped s s1 e E) as [Hn Hk].
    split; [simpl; rewrite Hk; exact Hn | split].
    + intros s1' Heq. discriminate.
    + intros e' s1' Heq. inversion Heq; subst. split; [reflexivity | ].
      rewrite Hk. exact Hn.
Qed.

End Session.

(** ** Authenticator *)

Section Authenticator.
Context {W : Type} `{Browser W}.

Lemma login_verify_indicator (m : string) (d : WebDriver) (s : State W) :
  truthy (Some m) = true ->
  driver (self s) = Some d ->
  login_verify (Some m) s =
    match first_presence d By_XPATH m (world s) with
    | Appears t e =>
        if Qle_bool t 10 then (Ok true, logged_in "Login successful!" t s)
        else (Ok false, timed_out s)
    | Absent => (Ok false, timed_out s)
    | Broken e =>
        if is_TimeoutException e
        then (Ok false, printed "Login failed: success indicator not found" s)
        else (Raise e, s)
    end.
Proof.
  intros Ht Hd. unfold login_verify. rewrite Ht.
  unfold try_except, bind, on_driver, get_self, bind. rewrite Hd.
  unfold WebDriverWait_until.
  destruct (first_presence d By_XPATH m (world s)) as [t e | | e].
  - destruct (Qle_bool t 10); reflexivity.
  - reflexivity.
  - unfold raise. destruct (is_TimeoutException e); reflexivity.
Qed.

Lemma login_verify_no_driver (m : string) (s : State W) :
  truthy (Some m) = true ->
  driver (self s) = None ->
  exists e, login_verify (Some m) s = (Raise e, s).
Proof.
  intros Ht Hd. unfold login_verify. rewrite Ht.
  unfold try_except, bind, on_driver, get_self, bind. rewrite Hd.
  eexists. reflexivity.
Qed.

Lemma login_verify_unchecked (si : option string) (s : State W) :
  truthy si = false ->
  login_verify si s =
    (Ok true,
     mkState (set_session_active true (self s)) (world s)
       (stdout s ++ ["Login completed (no success indicator to verify)"]) (clock s)).
Proof.
  intro Ht. unfold login_verify. destruct si as [m | ].
  - rewrite Ht. reflexivity.
  - reflexivity.
Qed.

(** [login_verify] returns true only in the two ways the code has. *)
Lemma login_verify_true (si : option string) (s s' : State W) :
  login_verify si s = (Ok true, s') ->
  truthy si = false \/
  exists m, si = Some m /\ truthy si = true /\ appears_within 10 m s.
Proof.
  intro Hv. destruct (truthy si) eqn:Ht; [right | left; reflexivity].
  destruct si as [m | ]; [ | discriminate]. exists m.
  split; [reflexivity | split; [reflexivity | ]].
  destruct (driver (self s)) as [d | ] eqn:Hd.
  - rewrite (login_verify_indicator m d s Ht Hd) in Hv.
    destruct (first_presence d By_XPATH m (world s)) as [t e | | e] eqn:Hp.
    + destruct (Qle_bool t 10) eqn:Hle; [ | discriminate].
      exists d, t, e. repeat split; try assumption.
      apply Qle_bool_iff. exact Hle.
    + discriminate.
    + destruct (is_TimeoutException e); discriminate.
  - destruct (login_verify_no_driver m s Ht Hd) as [e He]. congruence.
Qed.

(** When it does not return true, [login_verify] has not touched [self], and
    a returned false comes with the message of the inner handler. *)
Lemma login_verify_not_true (si : option string) (s : State W) :
  fst (login_verify si s) <> Ok true ->
  self (snd (login_verify si s)) = self s /\
  (fst (login_verify si s) = Ok false ->
   exists out,
     stdout (snd (login_verify si s)) =
       (out ++ ["Login failed: success indicator not found"])%list).
Proof.
  intro Hn. destruct (truthy si) eqn:Ht.
  - destruct si as [m | ]; [ | discriminate].
    destruct (driver (self s)) as [d | ] eqn:Hd.
    + rewrite (login_verify_indicator m d s Ht Hd) in *.
      destruct (first_presence d By_XPATH m (world s)) as [t e | | e].
      * destruct (Qle_bool t 10); simpl in *; [congruence | ].
        split; [reflexivity | intros _; eexists; reflexivity].
      * simpl. split; [reflexivity | intros _; eexists; reflexivity].
      * destruct (is_TimeoutException e); simpl.
        -- split; [reflexivity | intros _; eexists; reflexivity].
        -- split; [reflexivity | discriminate].
    + destruct (login_verify_no_driver m s Ht Hd) as [e He]. rewrite He. simpl.
      split; [reflexivity | discriminate].
  - rewrite (login_verify_unchecked si s Ht) in Hn. simpl in Hn. congruence.
Qed.

(** [login] once the guard has returned: the outer handler turns every
    exception of the body into [False] and a printed line. *)
Lemma login_after_start url username password username_field password_field
    submit_button success_indicator (s s0 : State W) :
  ensure_started s = (Ok tt, s0) ->
  login url username password username_field password_field submit_button
    success_indicator s =
  match (login_submit url username password username_field password_field
           submit_button ;; login_verify success_indicator) s0 with
  | (Ok b, s1) => (Ok b, s1)
  | (Raise e, s1) => (Ok false, printed ("Login failed with error: " ++ str e) s1)
  end.
Proof.
  intro Hs. unfold login. unfold bind at 1. rewrite Hs. unfold try_except.
  match goal with |- context [match ?b s0 with _ => _ end] => destruct (b s0) as [[b' | e] s1] end;
    reflexivity.
Qed.

(** [login] when the guard raises: nothing catches it. *)
Lemma login_start_raises url username password username_field password_field
    submit_button success_indicator (s s' : State W) (e : exn) :
  ensure_started s = (Raise e, s') ->
  login url username password username_field password_field submit_button
    success_indicator s = (Raise e, s').
Proof.
  intro Hs. unfold login. unfold bind at 1. rewrite Hs. reflexivity.
Qed.

End Authenticator.

Section Guard.
Context {W : Type} `{Browser W}.

Lemma start_started_noop (s : State W) (d : WebDriver) :
  driver (self s) = Some d -> start s = (Ok tt, s).
Proof.
  intro Hd.
  destruct (start_cases s) as [(d' & _ & E) | [(Hn & _) | (Hn & _)]];
    [exact E | congruence | congruence].
Qed.

(** A method that begins with the guard behaves, on the state [start] has
    left, as it does on the state before. *)
Lemma guarded_after_start {A : Type} (k : unit -> M W A) (s s0 : State W) :
  start s = (Ok tt, s0) ->
  bind ensure_started k s = bind ensure_started k s0.
Proof.
  intro Hs. unfold bind. rewrite !ensure_started_start, Hs.
  destruct (start_ok_started s s0 Hs) as (d & Hd & _).
  rewrite (start_started_noop s0 d Hd). reflexivity.
Qed.

Lemma guarded_start_raises {A : Type} (k : unit -> M W A) (s s' : State W) (e : exn) :
  start s = (Raise e, s') ->
  bind ensure_started k s = (Raise e, s').
Proof.
  intro Hs. unfold bind. rewrite ensure_started_start, Hs. reflexivity.
Qed.

(** Calling [start] first changes nothing for such a method. *)
Lemma start_then_guarded {A : Type} (k : unit -> M W A) (s : State W) :
  (start ;; bind ensure_started k) s = bind ensure_started k s.
Proof.
  unfold bind at 1. destruct (start s) as [[[] | e] s0] eqn:Hs.
  - symmetry. apply guarded_after_start. exact Hs.
  - symmetry. apply guarded_start_raises. exact Hs.
Qed.

End Guard.

Section AuthenticatorClaims.
Context {W : Type} `{Browser W}.
Variables url username password username_field password_field submit_button : string.
Variable success_indicator : option string.

(** C1, as amended.  Once the guard at the top of [login] has returned (the
    session had a driver, or the start that [login] performs succeeded),
    [login] returns a boolean and raises nothing.  An exception raised in
    the navigate, wait, fill, submit and verify sequence is caught: the call
    returns false and prints "Login failed with error: " followed by the
    exception's text.  Every false result comes with a printed diagnostic as
    the last line of output. *)
Theorem C1_login_catches_after_start (s s0 : State W) :
  ensure_started s = (Ok tt, s0) ->
  (exists b,
     fst (login url username password username_field password_field submit_button
            success_indicator s) = Ok b) /\
  (forall e s1,
     (login_submit url username password username_field password_field submit_button ;;
      login_verify success_indicator) s0 = (Raise e, s1) ->
     login url username password username_field password_field submit_button
       success_indicator s =
     (Ok false, printed ("Login failed with error: " ++ str e) s1)) /\
  (fst (login url username password username_field password_field submit_button
          success_indicator s) = Ok false ->
   exists out msg,
     stdout (snd (login url username password username_field password_field
                    submit_button success_indicator s)) = (out ++ [msg])%list /\
     (msg = "Login failed: success indicator not found" \/
      exists e, msg = "Login failed with error: " ++ str e)).
Proof.
  intro Hs.
  rewrite (login_after_start _ _ _ _ _ _ _ s s0 Hs).
  unfold bind.
  destruct (login_submit url username password username_field password_field
              submit_button s0) as [[[] | e] s1].
  - pose proof (login_verify_not_true success_indicator s1) as Hv.
    destruct (login_verify success_indicator s1) as [[b | e] s2]; simpl in *.
    + split; [eexists; reflexivity | split; [discriminate | ]].
      intro Hb. inversion Hb; subst b.
      destruct Hv as [_ Hv]; [discriminate | ].
      destruct (Hv eq_refl) as [out Hout].
      exists out. eexists. split; [exact Hout | left; reflexivity].
    + split; [eexists; reflexivity | split].
      * intros e' s1' Heq. inversion Heq; subst. reflexivity.
      * intros _. exists (stdout s2). eexists. split; [reflexivity | ].
        right. exists e. reflexivity.
  - simpl. split; [eexists; reflexivity | split].
    + intros e' s1' Heq. inversion Heq; subst. reflexivity.
    + intros _. exists (stdout s1). eexists. split; [reflexivity | ].
      right. exists e. reflexivity.
Qed.

(** C2.  [login] returns true exactly when the guard and the submission
    sequence completed without an exception and either a success indicator
    was given and its element is present within the 10 seconds of the wait,
    or none was given ([None] or the empty string, which the code's test
    [if success_indicator] treats alike).  When an indicator was given and
    its element is not there within the 10 seconds, [login] returns false,
    through the handler of [TimeoutException], having waited the 10 seconds
    and printed that handler's line; it does not raise. *)
Theorem C2_login_true_iff (s : State W) :
  (fst (login url username password username_field password_field submit_button
          success_indicator s) = Ok true <->
   exists s0 s1,
     ensure_started s = (Ok tt, s0) /\
     login_submit url username password username_field password_field submit_button s0
       = (Ok tt, s1) /\
     ((exists m, success_indicator = Some m /\ truthy success_indicator = true /\
                 appears_within 10 m s1) \/
      truthy success_indicator = false)) /\
  (forall s0 s1 m,
     ensure_started s = (Ok tt, s0) ->
     login_submit url username password username_field password_field submit_button s0
       = (Ok tt, s1) ->
     success_indicator = Some m ->
     truthy success_indicator = true ->
     missing_within 10 m s1 ->
     login url username password username_field password_field submit_button
       success_indicator s = (Ok false, timed_out s1)).
Proof.
  split; [split | ].
  - intro Ht.
    destruct (ensure_started s) as [[[] | e] s0] eqn:Hs.
    + rewrite (login_after_start _ _ _ _ _ _ _ s s0 Hs) in Ht.
      unfold bind in Ht.
      destruct (login_submit url username password username_field password_field
                  submit_button s0) as [[[] | e] s1] eqn:Hsub.
      * exists s0, s1. split; [reflexivity | split; [exact Hsub | ]].
        destruct (login_verify success_indicator s1) as [[b | e] s2] eqn:Hv;
          simpl in Ht; [ | discriminate].
        inversion Ht; subst b.
        destruct (login_verify_true _ _ _ Hv) as [Hf | Hm]; [right | left]; assumption.
      * simpl in Ht. discriminate.
    + rewrite (login_start_raises _ _ _ _ _ _ _ s s0 e Hs) in Ht. discriminate.
  - intros (s0 & s1 & Hs & Hsub & Hcase).
    rewrite (login_after_start _ _ _ _ _ _ _ s s0 Hs).
    unfold bind. rewrite Hsub.
    destruct Hcase as [(m & Hsi & Ht & d & t & e & Hd & Hp & Hle) | Hf].
    + rewrite Hsi in *. rewrite (login_verify_indicator m d s1 Ht Hd), Hp.
      apply Qle_bool_iff in Hle. rewrite Hle. reflexivity.
    + rewrite (login_verify_unchecked _ _ Hf). reflexivity.
  - intros s0 s1 m Hs Hsub Hsi Ht (d & Hd & Hmiss).
    rewrite (login_after_start _ _ _ _ _ _ _ s s0 Hs).
    unfold bind. rewrite Hsub. rewrite Hsi in *.
    rewrite (login_verify_indicator m d s1 Ht Hd).
    destruct Hmiss as [Hp | (t & e & Hp & Hlt)]; rewrite Hp.
    + reflexivity.
    + destruct (Qle_bool t 10) eqn:Hle; [ | reflexivity].
      apply Qle_bool_iff in Hle. exfalso. exact (Qlt_not_le _ _ Hlt Hle).
Qed.

End AuthenticatorClaims.

(** ** The authenticated flag *)

Section Flag.
Context {W : Type} `{Browser W}.

(** A method made of the guard and of steps that keep [self] leaves the flag
    as it was and does not lose the driver. *)
Lemma guarded_flag {A : Type} (k : unit -> M W A) (s : State W) :
  (forall u, self_kept (k u)) ->
  session_active (self (snd (bind ensure_started k s))) = session_active (self s) /\
  (driver (self s) <> None -> driver (self (snd (bind ensure_started k s))) <> None).
Proof.
  intro Hk. unfold bind. rewrite ensure_started_start.
  pose proof (start_flag s) as [Hf Hd].
  destruct (start s) as [[u | e] s0]; simpl in *.
  - rewrite (Hk u s0). split; assumption.
  - split; assumption.
Qed.

(** What a call of [login] does to [self]: it returns true, with the flag
    set and a driver in place, or it returns something else, with the flag
    as it was. *)
Lemma login_effect url username password username_field password_field submit_button
    success_indicator (s : State W) :
  let r := login url username password username_field password_field submit_button
             success_indicator s in
  (fst r = Ok true /\
   session_active (self (snd r)) = true /\ driver (self (snd r)) <> None) \/
  (fst r <> Ok true /\
   session_active (self (snd r)) = session_active (self s) /\
   (driver (self s) <> None -> driver (self (snd r)) <> None)).
Proof.
  cbv zeta.
  destruct (ensure_started s) as [[[] | e] s0] eqn:Hs.
  - rewrite (login_after_start _ _ _ _ _ _ _ s s0 Hs).
    rewrite ensure_started_start in Hs.
    destruct (start_ok_started s s0 Hs) as (d & Hd & Hf).
    unfold bind.
    pose proof (login_submit_self_kept url username password username_field
                  password_field submit_button s0) as Hk.
    destruct (login_submit url username password username_field password_field
                submit_button s0) as [[[] | e] s1]; simpl in Hk.
    + destruct (login_verify success_indicator s1) as [[[ | ] | e] s2] eqn:Hv.
      * left. simpl. split; [reflexivity | ].
        destruct (login_verify_true _ _ _ Hv) as [Hu | (m & Hsi & Ht & _)].
        -- rewrite (login_verify_unchecked _ _ Hu) in Hv. inversion Hv; subst s2.
           simpl. rewrite Hk, Hd. split; [reflexivity | discriminate].
        -- subst success_indicator.
           assert (Hd1 : driver (self s1) = Some d) by (rewrite Hk; exact Hd).
           rewrite (login_verify_indicator m d s1 Ht Hd1) in Hv.
           destruct (first_presence d By_XPATH m (world s1)) as [t el | | e'].
           ++ destruct (Qle_bool t 10); inversion Hv; subst s2.
              simpl. rewrite Hd1. split; [reflexivity | discriminate].
           ++ discriminate.
           ++ destruct (is_TimeoutException e'); discriminate.
      * right. simpl.
        pose proof (login_verify_not_true success_indicator s1) as Hn.
        rewrite Hv in Hn. simpl in Hn. destruct Hn as [Hn _]; [discriminate | ].
        rewrite Hn, Hk. split; [discriminate | split; [exact Hf | ]].
        intros _. rewrite Hd. discriminate.
      * right. simpl.
        pose proof (login_verify_not_true success_indicator s1) as Hn.
        rewrite Hv in Hn. simpl in Hn. destruct Hn as [Hn _]; [discriminate | ].
        rewrite Hn, Hk. split; [discriminate | split; [exact Hf | ]].
        intros _. rewrite Hd. discriminate.
    + right. simpl. rewrite Hk. split; [discriminate | split; [exact Hf | ]].
      intros _. rewrite Hd. discriminate.
  - rewrite (login_start_raises _ _ _ _ _ _ _ s s0 e Hs).
    rewrite ensure_started_start in Hs.
    destruct (start_raise_stopped s s0 e Hs) as [Hn Hk].
    right. simpl. rewrite Hk. split; [discriminate | split; [reflexivity | auto]].
Qed.

(** [close] leaves the flag false, or leaves a session without a driver
    untouched. *)
Lemma close_effect (s : State W) :
  driver (self (snd (close s))) = None /\
  (session_active (self (snd (close s))) = false \/
   (driver (self s) = None /\ snd (close s) = s)).
Proof.
  destruct (close_cases s) as [(Hn & E) | (d & Hd & E)]; rewrite E; simpl.
  - split; [exact Hn | right; split; [exact Hn | reflexivity]].
  - split; [reflexivity | left; reflexivity].
Qed.

Section WithParser.
Context {Soup Tag : Type} `{BS4 Soup Tag}.

Lemma extract_data_self_kept (soup : Soup) selector attribute :
  self_kept (W:=W) (extract_data soup selector attribute).
Proof. unfold extract_data. auto 20 with kept. Qed.

Lemma scrape_page_effect (url : option string) (wait_time : Q) (s : State W) :
  session_active (self (snd (scrape_page url wait_time s))) = session_active (self s) /\
  (driver (self s) <> None ->
   driver (self (snd (scrape_page url wait_time s))) <> None).
Proof.
  unfold scrape_page. apply guarded_flag. intros _.
  destruct url as [u | ]; [destruct (truthy (Some u)) | ]; auto 30 with kept.
Qed.

(** The value and the state of [invoke] are those of the method. *)
Lemma invoke_state (m : method Soup) (s : State W) :
  snd (invoke m s) =
  match m with
  | call_start => snd (start s)
  | call_login a b c d e f g => snd (login a b c d e f g s)
  | call_scrape_page u t => snd (scrape_page u t s)
  | call_extract_data p q a => snd (extract_data p q a s)
  | call_wait_random a b => snd (wait_random a b s)
  | call_close => snd (close s)
  | call_enter => snd (start s)
  | call_exit _ => snd (close s)
  end.
Proof.
  destruct m; unfold invoke, bind, __enter__, __exit__;
    match goal with |- context [match ?c s with _ => _ end] => destruct (c s) as [[? | ?] ?] end;
    reflexivity.
Qed.

Lemma invoke_login_value a b c d e f g (s : State W) (v : bool) :
  fst (login a b c d e f g s) = Ok v ->
  fst (invoke (call_login a b c d e f g) s) = Ok (VBool v).
Proof.
  unfold invoke, bind. destruct (login a b c d e f g s) as [[b' | e'] s']; simpl;
    intro Hv; inversion Hv; reflexivity.
Qed.

(** Every call keeps: an authenticated session has a driver. *)
Lemma reachable_authenticated_started (s : State W) :
  reachable s -> session_active (self s) = true -> driver (self s) <> None.
Proof.
  induction 1 as [h ws w out t | s m Hr IH].
  - simpl. discriminate.
  - rewrite invoke_state. destruct m.
    + destruct (start_flag s) as [Hf Hd]. rewrite Hf. auto.
    + match goal with |- context [login ?a ?b ?c ?d ?e ?f ?g s] =>
        destruct (login_effect a b c d e f g s) as [(_ & _ & Hd) | (_ & Hf & Hd)] end.
      * intros _. exact Hd.
      * rewrite Hf. auto.
    + destruct (scrape_page_effect url wait_time s) as [Hf Hd]. rewrite Hf. auto.
    + rewrite extract_data_self_kept. exact IH.
    + rewrite wait_random_self_kept. exact IH.
    + destruct (close_effect s) as [_ [Hf | [_ E]]].
      * rewrite Hf. discriminate.
      * rewrite E. exact IH.
    + destruct (start_flag s) as [Hf Hd]. rewrite Hf. auto.
    + destruct (close_effect s) as [_ [Hf | [_ E]]].
      * rewrite Hf. discriminate.
      * rewrite E. exact IH.
Qed.

(** C8.  [session_active] is false in a new object.  A call that finds it
    false and leaves it true is a call of [login] that returned true.  A
    [login] that returns true leaves it true; a [login] that returns false or
    raises leaves it as it was.  [close] on a started session leaves the flag
    false, whichever sub-state it was called in.  In every state an object
    reaches through its methods an authenticated session is a started one,
    so there [close] leaves the flag false in all cases. *)
Theorem C8_session_active_only_by_login :
  (forall headless_ window_size_,
     session_active (__init__ headless_ window_size_) = false) /\
  (forall (m : method Soup) (s : State W),
     authenticated s = false ->
     authenticated (snd (invoke m s)) = true ->
     is_login m = true /\ fst (invoke m s) = Ok (VBool true)) /\
  (forall a b c d e f g (s : State W),
     fst (login a b c d e f g s) = Ok true ->
     authenticated (snd (login a b c d e f g s)) = true) /\
  (forall a b c d e f g (s : State W),
     fst (login a b c d e f g s) <> Ok true ->
     authenticated (snd (login a b c d e f g s)) = authenticated s) /\
  (forall s : State W,
     started s = true -> authenticated (snd (close s)) = false) /\
  (forall s : State W,
     reachable s ->
     (authenticated s = true -> started s = true) /\
     authenticated (snd (close s)) = false).
Proof.
  unfold authenticated, started.
  split; [reflexivity | split; [ | split; [ | split; [ | split]]]].
  - intros m s Hb Ha. rewrite invoke_state in Ha.
    destruct m as [ | a b c d e f g | u t | p q attr | lo hi | | | exc]; simpl.
    + destruct (start_flag s) as [Hf _]. rewrite Hf, Hb in Ha. discriminate.
    + destruct (login_effect a b c d e f g s) as [(Ht & _) | (_ & Hf & _)].
      * split; [reflexivity | apply invoke_login_value; exact Ht].
      * rewrite Hf, Hb in Ha. discriminate.
    + destruct (scrape_page_effect u t s) as [Hf _]. rewrite Hf, Hb in Ha. discriminate.
    + rewrite extract_data_self_kept, Hb in Ha. discriminate.
    + rewrite wait_random_self_kept, Hb in Ha. discriminate.
    + destruct (close_effect s) as [_ [Hf | [_ E]]].
      * rewrite Hf in Ha. discriminate.
      * rewrite E, Hb in Ha. discriminate.
    + destruct (start_flag s) as [Hf _]. rewrite Hf, Hb in Ha. discriminate.
    + destruct (close_effect s) as [_ [Hf | [_ E]]].
      * rewrite Hf in Ha. discriminate.
      * rewrite E, Hb in Ha. discriminate.
  - intros a b c d e f g s Ht.
    destruct (login_effect a b c d e f g s) as [(_ & Hf & _) | (Hn & _)];
      [exact Hf | congruence].
  - intros a b c d e f g s Hn.
    destruct (login_effect a b c d e f g s) as [(Ht & _) | (_ & Hf & _)];
      [congruence | exact Hf].
  - intros s Hst.
    destruct (close_effect s) as [_ [Hf | [Hn _]]]; [exact Hf | ].
    rewrite Hn in Hst. discriminate.
  - intros s Hr. split.
    + intro Ha. pose proof (reachable_authenticated_started s Hr Ha) as Hd.
      destruct (driver (self s)); [reflexivity | congruence].
    + destruct (close_effect s) as [_ [Hf | [Hn E]]]; [exact Hf | ].
      rewrite E. destruct (session_active (self s)) eqn:Ha; [ | reflexivity].
      exfalso. exact (reachable_authenticated_started s Hr Ha Hn).
Qed.

End WithParser.

End Flag.

(** ** The guard of [login] and [scrape_page] *)

Section AutoStart.
Context {W : Type} `{Browser W} {Soup Tag : Type} `{BS4 Soup Tag}.
Variables url username password username_field password_field submit_button : string.
Variable success_indicator : option string.
Variable page_url : option string.
Variable wait_time : Q.

(** C10.  On a session with no driver handle, [login] and [scrape_page] do
    what they do when [start] is called first: each runs [start] itself.
    When that start returns, the object has the new driver handle and is
    otherwise as before, and the call goes on as on a started session;
    [login] then returns a boolean.  The start runs
    before [login]'s [try]: when it raises, [login] raises the same exception
    to its caller, and so does [scrape_page]. *)
Theorem C10_auto_start (s : State W) :
  driver (self s) = None ->
  login url username password username_field password_field submit_button
    success_indicator s =
  (start ;;
   login url username password username_field password_field submit_button
     success_indicator) s /\
  scrape_page page_url wait_time s = (start ;; scrape_page page_url wait_time) s /\
  (forall s0,
     start s = (Ok tt, s0) ->
     (exists d, self s0 = set_driver (Some d) (self s)) /\
     started s0 = true /\
     login url username password username_field password_field submit_button
       success_indicator s =
     login url username password username_field password_field submit_button
       success_indicator s0 /\
     (exists b,
        fst (login url username password username_field password_field submit_button
               success_indicator s) = Ok b) /\
     scrape_page page_url wait_time s = scrape_page page_url wait_time s0) /\
  (forall e s',
     start s = (Raise e, s') ->
     login url username password username_field password_field submit_button
       success_indicator s = (Raise e, s') /\
     scrape_page page_url wait_time s = (Raise e, s')).
Proof.
  intros Hn. unfold login, scrape_page.
  split; [symmetry; apply start_then_guarded | ].
  split; [symmetry; apply start_then_guarded | ].
  split.
  - intros s0 Hs. destruct (start_ok_started s s0 Hs) as (d & Hd & _).
    split.
    { destruct (start_cases s) as [(d' & Hd' & _) | [(_ & e & s' & E & _) | (_ & d' & s' & E & _ & Hself)]].
      - congruence.
      - rewrite E in Hs. discriminate.
      - rewrite E in Hs. inversion Hs; subst s0. exists d'. exact Hself. }
    split; [unfold started; rewrite Hd; reflexivity | ].
    split; [apply guarded_after_start; exact Hs | ].
    split; [ | apply guarded_after_start; exact Hs].
    rewrite <- ensure_started_start in Hs.
    pose proof (login_after_start url username password username_field password_field
                  submit_button success_indicator s s0 Hs) as E.
    unfold login in E. rewrite E.
    match goal with |- context [match ?b s0 with _ => _ end] =>
      destruct (b s0) as [[b' | e] s1] end; eexists; reflexivity.
  - intros e s' Hs. split; apply guarded_start_raises; exact Hs.
Qed.

End AutoStart.

(** ** Extractor *)

Section Extractor.
Context {W : Type} `{Browser W} {Soup Tag : Type} `{BS4 Soup Tag}.

Lemma extract_data_selected (soup : Soup) (selector : string)
    (attribute : option string) (elements : list Tag) (s : State W) :
  select soup selector = Ok elements ->
  extract_data soup selector attribute s =
    (Ok (match attribute with
         | Some a =>
             if truthy attribute
             then map (fun elem => tag_get elem a (PStr "")) elements
             else map (fun elem => PStr (get_text_strip elem)) elements
         | None => map (fun elem => PStr (get_text_strip elem)) elements
         end),
     printed (extracted_line (length elements) selector) s).
Proof.
  intro Hsel. unfold extract_data, bind, lift. rewrite Hsel.
  unfold print, ret, printed, extracted_line.
  destruct attribute as [a | ]; [destruct (truthy (Some a)) | ];
    rewrite length_map; reflexivity.
Qed.

(** C3.  When the selector matches no element of the document,
    [extract_data] returns the empty list and raises nothing, for a request
    of text (no attribute, or the empty attribute name) and for a request of
    an attribute alike. *)
Theorem C3_extract_nothing (soup : Soup) (selector : string)
    (attribute : option string) (s : State W) :
  select soup selector = Ok [] ->
  extract_data soup selector attribute s =
    (Ok [], printed (extracted_line 0 selector) s).
Proof.
  intro Hsel. rewrite (extract_data_selected soup selector attribute [] s Hsel).
  destruct attribute as [a | ]; [destruct (truthy (Some a)) | ]; reflexivity.
Qed.

(** C4.  With a non-empty attribute name, [extract_data] returns one entry
    per matching element, in the order of the matches: the list has the
    length of the matches and its i-th entry is the i-th element's value of
    the attribute, or the empty string when the element has no such
    attribute. *)
Theorem C4_extract_attribute (soup : Soup) (selector a : string)
    (elements : list Tag) (s : State W) :
  select soup selector = Ok elements ->
  a <> "" ->
  exists data,
    fst (extract_data soup selector (Some a) s) = Ok data /\
    length data = length elements /\
    forall i elem,
      nth_error elements i = Some elem ->
      nth_error data i =
        Some (match tag_attr elem a with
              | Some v => v
              | None => PStr ""
              end).
Proof.
  intros Hsel Ha.
  rewrite (extract_data_selected soup selector (Some a) elements s Hsel).
  assert (Ht : truthy (Some a) = true).
  { simpl. destruct (String.eqb a "") eqn:E; [ | reflexivity].
    apply String.eqb_eq in E. contradiction. }
  rewrite Ht. eexists. split; [reflexivity | split].
  - apply length_map.
  - intros i elem Hi. rewrite nth_error_map, Hi. reflexivity.
Qed.


End Extractor.

(** ** Pacer *)

Section Pacer.
Context {W : Type} `{Browser W}.


End Pacer.

(** ** The theorems at work on the scripted browser *)

(** With no driver to be had, [login] raises to its caller. *)
Lemma C1_login_raises_when_start_fails :
  sim_login sim_login_url None sim_offline =
    (Raise (mkExn OtherException "Could not reach host. Are you offline?"), sim_offline).
Proof. vm_compute. reflexivity. Qed.

(** A page that does not load: the exception is caught and reported. *)
Lemma C1_login_catches_witness :
  ensure_started sim_state = (Ok tt, sim_started) /\
  exists b, fst (sim_login "https://down.example" None sim_state) = Ok b.
Proof.
  assert (Hs : ensure_started sim_state = (Ok tt, sim_started))
    by (vm_compute; reflexivity).
  split; [exact Hs | ].
  exact (proj1 (C1_login_catches_after_start
                  "https://down.example" "user" "secret" default_username_field
                  default_password_field default_submit_button None
                  sim_state sim_started Hs)).
Defined.

(** An indicator that never shows up: the wait runs out and [login] returns
    false. *)
Lemma C2_login_true_iff_witness :
  ensure_started sim_state = (Ok tt, sim_started) /\
  login_submit sim_login_url "user" "secret" default_username_field
    default_password_field default_submit_button sim_started = (Ok tt, sim_submitted) /\
  truthy (Some "//div[@id='missing']") = true /\
  missing_within 10 "//div[@id='missing']" sim_submitted /\
  sim_login sim_login_url (Some "//div[@id='missing']") sim_state =
    (Ok false, timed_out sim_submitted).
Proof.
  assert (Hs : ensure_started sim_state = (Ok tt, sim_started))
    by (vm_compute; reflexivity).
  assert (Hsub : login_submit sim_login_url "user" "secret" default_username_field
            default_password_field default_submit_button sim_started
          = (Ok tt, sim_submitted)) by (vm_compute; reflexivity).
  assert (Ht : truthy (Some "//div[@id='missing']") = true) by reflexivity.
  assert (Hm : missing_within 10 "//div[@id='missing']" sim_submitted).
  { exists 0%nat. split; [vm_compute; reflexivity | left; vm_compute; reflexivity]. }
  split; [exact Hs | split; [exact Hsub | split; [exact Ht | split; [exact Hm | ]]]].
  exact (proj2 (C2_login_true_iff
                  sim_login_url "user" "secret" default_username_field
                  default_password_field default_submit_button
                  (Some "//div[@id='missing']") sim_state)
           sim_started sim_submitted "//div[@id='missing']" Hs Hsub eq_refl Ht Hm).
Defined.

Lemma C3_extract_nothing_witness :
  select (BS4:=Node_BS4 test_parse) test_page "div" = Ok [] /\
  extract_data (H0:=Node_BS4 test_parse) test_page "div" (Some "href") sim_state =
    (Ok [], printed (extracted_line 0 "div") sim_state).
Proof.
  assert (Hsel : select (BS4:=Node_BS4 test_parse) test_page "div" = Ok [])
    by reflexivity.
  split; [exact Hsel | ].
  exact (C3_extract_nothing (H0:=Node_BS4 test_parse) test_page "div" (Some "href")
           sim_state Hsel).
Defined.

Lemma C4_extract_attribute_witness :
  select (BS4:=Node_BS4 test_parse) test_page "a" = Ok [test_a1; test_a2] /\
  "href" <> "" /\
  exists data,
    fst (extract_data (H0:=Node_BS4 test_parse) test_page "a" (Some "href") sim_state)
      = Ok data /\
    length data = 2%nat /\
    forall i elem,
      nth_error [test_a1; test_a2] i = Some elem ->
      nth_error data i =
        Some (match node_attr elem "href" with Some v => v | None => PStr "" end).
Proof.
  assert (Hsel : select (BS4:=Node_BS4 test_parse) test_page "a" = Ok [test_a1; test_a2])
    by reflexivity.
  assert (Ha : "href" <> "") by discriminate.
  split; [exact Hsel | split; [exact Ha | ]].
  exact (C4_extract_attribute (H0:=Node_BS4 test_parse) test_page "a" "href"
           [test_a1; test_a2] sim_state Hsel Ha).
Defined.


Lemma C6_start_close_idempotent_witness :
  driver (self sim_started) = Some 0%nat /\
  start sim_started = (Ok tt, sim_started) /\
  driver (self (snd (close sim_started))) = None /\
  driver (self sim_state) = None /\
  close sim_state = (Ok tt, sim_state).
Proof.
  assert (Hd : driver (self sim_started) = Some 0%nat) by reflexivity.
  assert (Hn : driver (self sim_state) = None) by reflexivity.
  pose proof (C6_start_close_idempotent sim_started) as (Hstart & Hclose & _).
  pose proof (C6_start_close_idempotent sim_state) as (_ & _ & Hnone & _).
  split; [exact Hd | split; [exact (Hstart 0%nat Hd) | split]].
  - exact (proj1 (proj2 (Hclose 0%nat Hd))).
  - split; [exact Hn | exact (Hnone Hn)].
Defined.

(** A scope whose body fails to load its page: the exception leaves the
    scope and the session is closed. *)
Lemma C7_scope_always_closes_witness :
  __enter__ sim_state = (Ok tt, sim_started) /\
  raised (fst (scrape_page (H0:=Node_BS4 test_parse) (Some "https://down.example") 2
                 sim_started)) = true /\
  fst (with_ (scrape_page (H0:=Node_BS4 test_parse) (Some "https://down.example") 2)
         sim_state) =
    fst (scrape_page (H0:=Node_BS4 test_parse) (Some "https://down.example") 2
           sim_started) /\
  driver (self (snd (with_ (scrape_page (H0:=Node_BS4 test_parse)
                              (Some "https://down.example") 2) sim_state))) = None.
Proof.
  assert (He : __enter__ sim_state = (Ok tt, sim_started)) by (vm_compute; reflexivity).
  pose proof (C7_scope_always_closes
                (scrape_page (H0:=Node_BS4 test_parse) (Some "https://down.example") 2)
                sim_state) as (Hnone & Hok & _).
  split; [exact He | split; [vm_compute; reflexivity | split]].
  - exact (proj1 (proj2 (Hok sim_started He))).
  - exact Hnone.
Defined.

(** A login that finds the dashboard, then a [close]. *)
Lemma C8_session_active_witness :
  let m := call_login (Soup:=node) sim_login_url "user" "secret" default_username_field
             default_password_field default_submit_button
             (Some "//div[@id='dashboard']") in
  let s := snd (invoke (H0:=Node_BS4 test_parse) m sim_state) in
  authenticated sim_state = false /\
  authenticated s = true /\
  fst (invoke (H0:=Node_BS4 test_parse) m sim_state) = Ok (VBool true) /\
  reachable (H0:=Node_BS4 test_parse) s /\
  started s = true /\
  authenticated (snd (close s)) = false.
Proof.
  intros m s.
  pose proof (C8_session_active_only_by_login (W:=Sim) (H0:=Node_BS4 test_parse))
    as (_ & Honly & _ & _ & _ & Hreach).
  assert (Hb : authenticated sim_state = false) by reflexivity.
  assert (Ha : authenticated s = true) by (vm_compute; reflexivity).
  assert (Hr : reachable (H0:=Node_BS4 test_parse) s).
  { apply reachable_call. apply reachable_init. }
  split; [exact Hb | split; [exact Ha | split; [ | split; [exact Hr | split]]]].
  - exact (proj2 (Honly m sim_state Hb Ha)).
  - exact (proj1 (Hreach s Hr) Ha).
  - exact (proj2 (Hreach s Hr)).
Defined.



(** A first call on a new object: with a driver to be had the call starts
    the session and goes on; without one the failure reaches the caller. *)
Lemma C10_auto_start_witness :
  driver (self sim_state) = None /\
  start sim_state = (Ok tt, sim_started) /\
  sim_login sim_login_url None sim_state = sim_login sim_login_url None sim_started /\
  driver (self sim_offline) = None /\
  start sim_offline =
    (Raise (mkExn OtherException "Could not reach host. Are you offline?"), sim_offline) /\
  sim_login sim_login_url None sim_offline =
    (Raise (mkExn OtherException "Could not reach host. Are you offline?"), sim_offline) /\
  scrape_page (H0:=Node_BS4 test_parse) None 2 sim_offline =
    (Raise (mkExn OtherException "Could not reach host. Are you offline?"), sim_offline).
Proof.
  assert (Hn : driver (self sim_state) = None) by reflexivity.
  assert (Hs : start sim_state = (Ok tt, sim_started)) by (vm_compute; reflexivity).
  assert (Hn' : driver (self sim_offline) = None) by reflexivity.
  assert (Hs' : start sim_offline =
            (Raise (mkExn OtherException "Could not reach host. Are you offline?"),
             sim_offline)) by (vm_compute; reflexivity).
  pose proof (C10_auto_start (H0:=Node_BS4 test_parse)
                sim_login_url "user" "secret" default_username_field
                default_password_field default_submit_button None None 2
                sim_state Hn) as (_ & _ & Hok & _).
  pose proof (C10_auto_start (H0:=Node_BS4 test_parse)
                sim_login_url "user" "secret" default_username_field
                default_password_field default_submit_button None None 2
                sim_offline Hn') as (_ & _ & _ & Hraise).
  split; [exact Hn | split; [exact Hs | split]].
  - exact (proj1 (proj2 (proj2 (Hok sim_started Hs)))).
  - split; [exact Hn' | split; [exact Hs' | ]].
    exact (Hraise _ _ Hs').
Defined.

(** ** Runs *)

(** The dashboard shows up 7 seconds into the wait: success. *)
Example login_dashboard_run :
  let r := sim_login sim_login_url (Some "//div[@id='dashboard']") sim_state in
  fst r = Ok true /\
  session_active (self (snd r)) = true /\
  stdout (snd r) =
    ["WebDriver initialized successfully";
     "Navigating to login page: https://example.com/login";
     "Filling in credentials...";
     "Submitting login form...";
     "Login successful!"].
Proof. vm_compute. repeat split. Qed.

(** An element that needs 40 seconds: the 10 seconds run out. *)
Example login_late_run :
  let r := sim_login sim_login_url (Some "//div[@id='late']") sim_state in
  fst r = Ok false /\
  session_active (self (snd r)) = false /\
  last (stdout (snd r)) "" = "Login failed: success indicator not found".
Proof. vm_compute. repeat split. Qed.

(** The empty indicator is no indicator. *)
Example login_empty_indicator_run :
  let r := sim_login sim_login_url (Some "") sim_state in
  fst r = Ok true /\
  last (stdout (snd r)) "" = "Login completed (no success indicator to verify)".
Proof. vm_compute. repeat split. Qed.

(** The checks of [test_beautifulsoup_usage]. *)
Example test_beautifulsoup_usage_run :
  let paragraphs := fst (extract_data (H0:=Node_BS4 test_parse) test_page "p" None sim_state) in
  let links :=
    fst (extract_data (H0:=Node_BS4 test_parse) test_page "a" (Some "href") sim_state) in
  paragraphs = Ok [PStr "Paragraph 1"; PStr "Paragraph 2"] /\
  links = Ok [PStr "http://example.com"; PStr "http://test.com"].
Proof. vm_compute. repeat split. Qed.

Example format_2f_run :
  format_2f (3 # 2) = "1.50" /\ format_2f (1 # 3) = "0.33" /\ format_2f 12 = "12.00".
Proof. vm_compute. repeat split. Qed.

Example wait_random_run :
  let r := wait_random 1 3 sim_state in
  fst r = Ok tt /\
  stdout (snd r) = ["Waiting for 1.50 seconds..."] /\
  Qeq (clock (snd r)) (3 # 2).
Proof. vm_compute. repeat split. Qed.

(** * Further properties of the code *)

(** ** Running a method step by step *)

Section Steps.
Context {W : Type} `{Browser W}.

Lemma bind_ok {A B : Type} (m : M W A) (k : A -> M W B) (s s' : State W) (a : A) :
  m s = (Ok a, s') -> bind m k s = k a s'.
Proof. intro E. unfold bind. rewrite E. reflexivity. Qed.

Lemma bind_raise {A B : Type} (m : M W A) (k : A -> M W B) (s s' : State W) (e : exn) :
  m s = (Raise e, s') -> bind m k s = (Raise e, s').
Proof. intro E. unfold bind. rewrite E. reflexivity. Qed.

Lemma print_run (line : string) (s : State W) : print line s = (Ok tt, printed line s).
Proof. reflexivity. Qed.

Lemma call_run {A : Type} (f : W -> result A * W) (s : State W) (r : result A) (w : W) :
  f (world s) = (r, w) -> call f s = (r, with_world w s).
Proof. intro E. unfold call. rewrite E. reflexivity. Qed.

Lemma on_driver_run {A : Type} (meth : string) (f : WebDriver -> M W A) (s : State W)
    (d : WebDriver) :
  driver (self s) = Some d -> on_driver meth f s = f d s.
Proof. intro Hd. unfold on_driver, bind, get_self. rewrite Hd. reflexivity. Qed.

(** A wait for an element that is not there within the bound. *)
Lemma WebDriverWait_until_timeout (d : WebDriver) (timeout : Q) (by_ : By)
    (value : string) (s : State W) :
  first_presence d by_ value (world s) = Absent \/
  (exists t e, first_presence d by_ value (world s) = Appears t e /\ timeout < t) ->
  WebDriverWait_until d timeout by_ value s =
    (Raise (mkExn TimeoutException ("Message: " ++ nl)),
     mkState (self s) (elapse timeout (world s)) (stdout s) (clock s + timeout)).
Proof.
  intros [Hp | (t & e & Hp & Hlt)]; unfold WebDriverWait_until; rewrite Hp.
  - reflexivity.
  - destruct (Qle_bool t timeout) eqn:Hle; [ | reflexivity].
    apply Qle_bool_iff in Hle. exfalso. exact (Qlt_not_le _ _ Hlt Hle).
Qed.

End Steps.

(** ** What a call can do to the object *)

Section SelfRel.
Context {W : Type} `{Browser W}.

Lemma evolves_refl (o : WebScraper) : evolves o o.
Proof. repeat split; auto. Qed.

Lemma evolves_trans (o1 o2 o3 : WebScraper) :
  evolves o1 o2 -> evolves o2 o3 -> evolves o1 o3.
Proof.
  intros (Hh1 & Hw1 & Hd1) (Hh2 & Hw2 & Hd2). repeat split.
  - congruence.
  - congruence.
  - intros d Hd. apply Hd2, Hd1, Hd.
Qed.

Lemma evolves_set_session_active (b : bool) (o : WebScraper) :
  evolves o (set_session_active b o).
Proof. repeat split; auto. Qed.

Lemma self_kept_evolves {A : Type} (m : M W A) : self_kept m -> self_rel evolves m.
Proof. intros Hk s. rewrite Hk. apply evolves_refl. Qed.

Lemma self_rel_bind {A B : Type} (m : M W A) (k : A -> M W B) :
  self_rel evolves m -> (forall a, self_rel evolves (k a)) ->
  self_rel evolves (bind m k).
Proof.
  intros Hm Hk s. unfold bind. specialize (Hm s).
  destruct (m s) as [[a | e] s']; simpl in *.
  - eapply evolves_trans; [exact Hm | apply Hk].
  - exact Hm.
Qed.

Lemma self_rel_try_except {A : Type} (body : M W A) (catches : exn -> bool)
    (handler : exn -> M W A) :
  self_rel evolves body -> (forall e, self_rel evolves (handler e)) ->
  self_rel evolves (try_except body catches handler).
Proof.
  intros Hb Hh s. unfold try_except. specialize (Hb s).
  destruct (body s) as [[a | e] s']; simpl in *.
  - exact Hb.
  - destruct (catches e); simpl.
    + eapply evolves_trans; [exact Hb | apply Hh].
    + exact Hb.
Qed.

Lemma self_rel_for_each {A : Type} (l : list A) (body : A -> M W unit) :
  (forall x, self_rel evolves (body x)) -> self_rel evolves (for_each l body).
Proof.
  intro Hb. induction l as [ | x l IH]; simpl.
  - apply self_kept_evolves, self_kept_ret.
  - apply self_rel_bind; [apply Hb | intro; exact IH].
Qed.

Lemma start_evolves : self_rel evolves (W:=W) start.
Proof.
  intro s.
  destruct (start_cases s) as [(d & Hd & E) | [(Hn & e & s' & E & _ & Hk) | (Hn & d & s' & E & _ & Hk)]];
    rewrite E; simpl.
  - apply evolves_refl.
  - rewrite Hk. apply evolves_refl.
  - rewrite Hk. repeat split. intros d' Hd'. congruence.
Qed.

Lemma ensure_started_evolves : self_rel evolves (W:=W) ensure_started.
Proof. intro s. rewrite ensure_started_start. apply start_evolves. Qed.

Lemma assign_session_active_evolves (b : bool) :
  self_rel evolves (W:=W) (assign_session_active b).
Proof. intro s. apply evolves_set_session_active. Qed.

Lemma login_verify_evolves (si : option string) : self_rel evolves (W:=W) (login_verify si).
Proof.
  unfold login_verify.
  destruct si as [m | ]; [destruct (truthy (Some m)) | ].
  - apply self_rel_try_except.
    + apply self_rel_bind; [apply self_kept_evolves; auto with kept | intro].
      apply self_rel_bind; [apply self_kept_evolves; auto with kept | intro].
      apply self_rel_bind; [apply assign_session_active_evolves | intro].
      apply self_kept_evolves; auto with kept.
    + intro e. apply self_kept_evolves. auto with kept.
  - apply self_rel_bind; [apply self_kept_evolves; auto with kept | intro].
    apply self_rel_bind; [apply assign_session_active_evolves | intro].
    apply self_kept_evolves; auto with kept.
  - apply self_rel_bind; [apply self_kept_evolves; auto with kept | intro].
    apply self_rel_bind; [apply assign_session_active_evolves | intro].
    apply self_kept_evolves; auto with kept.
Qed.

Lemma login_evolves url username password username_field password_field submit_button
    success_indicator :
  self_rel evolves (W:=W)
    (login url username password username_field password_field submit_button
       success_indicator).
Proof.
  unfold login.
  apply self_rel_bind; [apply ensure_started_evolves | intro].
  apply self_rel_try_except.
  - apply self_rel_bind; [ | intro; apply login_verify_evolves].
    apply self_kept_evolves, login_submit_self_kept.
  - intro e. apply self_kept_evolves. auto with kept.
Qed.

Lemma wait_random_evolves lo hi : self_rel evolves (W:=W) (wait_random lo hi).
Proof. apply self_kept_evolves, wait_random_self_kept. Qed.

Lemma process_data_with_numpy_self_kept (data : list string) :
  self_kept (W:=W) (process_data_with_numpy data).
Proof. unfold process_data_with_numpy. auto 10 with kept. Qed.

Section SelfRelParsing.
Context {Soup Tag : Type} `{BS4 Soup Tag}.

Lemma scrape_page_evolves (url : option string) (wait_time : Q) :
  self_rel evolves (W:=W) (scrape_page url wait_time).
Proof.
  unfold scrape_page.
  apply self_rel_bind; [apply ensure_started_evolves | intro].
  apply self_kept_evolves.
  destruct url as [u | ]; [destruct (truthy (Some u)) | ]; auto 30 with kept.
Qed.

Lemma extract_data_evolves (soup : Soup) selector attribute :
  self_rel evolves (W:=W) (extract_data soup selector attribute).
Proof. apply self_kept_evolves, extract_data_self_kept. Qed.

(** X3.  No method but [close] and [__exit__] takes a driver handle away or
    puts another in its place: after [start], [login], [scrape_page],
    [extract_data], [wait_random] and [__enter__] a handle that was there is
    the same handle, whether the call returned or raised. *)
Theorem handle_kept_by_all_but_close (m : method Soup) (s : State W) (d : WebDriver) :
  is_close m = false ->
  driver (self s) = Some d ->
  driver (self (snd (invoke m s))) = Some d.
Proof.
  intros Hm Hd. rewrite invoke_state.
  destruct m as [ | a b c d' e f g | u t | p q attr | lo hi | | | exc];
    simpl in Hm; try discriminate.
  - apply (start_evolves s). exact Hd.
  - apply (login_evolves a b c d' e f g s). exact Hd.
  - apply (scrape_page_evolves u t s). exact Hd.
  - apply (extract_data_evolves p q attr s). exact Hd.
  - apply (wait_random_evolves lo hi s). exact Hd.
  - apply (start_evolves s). exact Hd.
Qed.

(** X4.  No method changes the configuration: [headless] and [window_size]
    are after every call, returned or raised, what they were before, so a
    session started again after [close] is set up with the same options. *)
Theorem configuration_kept (m : method Soup) (s : State W) :
  headless (self (snd (invoke m s))) = headless (self s) /\
  window_size (self (snd (invoke m s))) = window_size (self s) /\
  chrome_options_of (self (snd (invoke m s))) = chrome_options_of (self s).
Proof.
  assert (Hc : headless (self (snd (invoke m s))) = headless (self s) /\
               window_size (self (snd (invoke m s))) = window_size (self s)).
  { rewrite invoke_state.
    assert (Hclose : headless (self (snd (close s))) = headless (self s) /\
                     window_size (self (snd (close s))) = window_size (self s)).
    { destruct (close_cases s) as [(_ & E) | (d & _ & E)]; rewrite E; split; reflexivity. }
    destruct m as [ | a b c d' e f g | u t | p q attr | lo hi | | | exc].
    - destruct (start_evolves s) as (Hh & Hw & _). split; assumption.
    - destruct (login_evolves a b c d' e f g s) as (Hh & Hw & _). split; assumption.
    - destruct (scrape_page_evolves u t s) as (Hh & Hw & _). split; assumption.
    - destruct (extract_data_evolves p q attr s) as (Hh & Hw & _). split; assumption.
    - destruct (wait_random_evolves lo hi s) as (Hh & Hw & _). split; assumption.
    - exact Hclose.
    - destruct (start_evolves s) as (Hh & Hw & _). split; assumption.
    - exact Hclose. }
  destruct Hc as [Hh Hw]. split; [exact Hh | split; [exact Hw | ]].
  unfold chrome_options_of. rewrite Hh, Hw. reflexivity.
Qed.

End SelfRelParsing.

End SelfRel.

(** ** Starting the driver *)

Section Startup.
Context {W : Type} `{Browser W}.

(** X1.  The options [_setup_driver] builds follow the configuration:
    "--headless" is among the arguments exactly when [headless] is set, the
    window size is passed as "--window-size=" followed by [window_size], the
    four fixed switches and the user agent are always there, and the two
    experimental options are the same in every case. *)
Theorem chrome_options_follow_configuration (o : WebScraper) :
  (In "--headless" (arguments (chrome_options_of o)) <-> headless o = true) /\
  In ("--window-size=" ++ window_size o) (arguments (chrome_options_of o)) /\
  incl ["--no-sandbox"; "--disable-dev-shm-usage"; "--disable-gpu";
        "--disable-blink-features=AutomationControlled"; user_agent]
       (arguments (chrome_options_of o)) /\
  length (arguments (chrome_options_of o)) = (if headless o then 7 else 6)%nat /\
  experimental_options (chrome_options_of o) =
    [("excludeSwitches", OptList ["enable-logging"]);
     ("useAutomationExtension", OptBool false)].
Proof.
  unfold chrome_options_of. destruct (headless o); cbn -[user_agent].
  - split; [split; auto | ]. split; [auto | ].
    split; [ | split; reflexivity].
    intros x Hx. cbn in Hx. cbn -[user_agent]. intuition.
  - split.
    { split; [ | discriminate].
      intros [Hx | [Hx | [Hx | [Hx | [Hx | [Hx | []]]]]]]; discriminate. }
    split; [auto | ].
    split; [ | split; reflexivity].
    intros x Hx. cbn in Hx. cbn -[user_agent]. intuition.
Qed.

(** X2.  A start on a session without a handle asks webdriver-manager for
    the driver binary and then launches Chrome with that path and the
    options of the configuration.  When the installation raises, Chrome is
    not launched; when either step raises, [start] raises the same exception
    and the object, the output and the clock are untouched, so nothing says
    the driver was initialized.  When both return, the handle is the one
    Chrome gave and one line is printed. *)
Theorem start_launches_or_leaves_untouched (s : State W) :
  driver (self s) = None ->
  (forall e w1,
     driver_manager_install (world s) = (Raise e, w1) ->
     start s = (Raise e, with_world w1 s)) /\
  (forall path w1 e w2,
     driver_manager_install (world s) = (Ok path, w1) ->
     chrome_new path (chrome_options_of (self s)) w1 = (Raise e, w2) ->
     start s = (Raise e, with_world w2 s)) /\
  (forall path w1 d w2,
     driver_manager_install (world s) = (Ok path, w1) ->
     chrome_new path (chrome_options_of (self s)) w1 = (Ok d, w2) ->
     start s =
       (Ok tt,
        mkState (set_driver (Some d) (self s)) w2
          (stdout s ++ ["WebDriver initialized successfully"]) (clock s))).
Proof.
  intro Hn. unfold start, _setup_driver, bind, get_self, call. rewrite Hn.
  split; [ | split].
  - intros e w1 Hi. rewrite Hi. reflexivity.
  - intros path w1 e w2 Hi Hc. rewrite Hi. simpl. rewrite Hc. reflexivity.
  - intros path w1 d w2 Hi Hc. rewrite Hi. simpl. rewrite Hc. reflexivity.
Qed.

End Startup.

(** ** More on the Authenticator and the Page Fetcher *)

Section Fetching.
Context {W : Type} `{Browser W}.

(** X5.  When the login page loads but the username field is not present
    within the 10 seconds of the wait, [login] returns false: it has slept
    2 seconds and waited 10, it has typed and clicked nothing (the world is
    the one the page load left, 12 seconds older), the flag is as it was,
    and the last line printed reports the timeout. *)
Theorem login_username_field_timeout url username password username_field
    password_field submit_button success_indicator (s : State W) (d : WebDriver) (w1 : W) :
  driver (self s) = Some d ->
  driver_get d url (world s) = (Ok tt, w1) ->
  first_presence d By_NAME username_field (elapse 2 w1) = Absent \/
  (exists t e, first_presence d By_NAME username_field (elapse 2 w1) = Appears t e /\
               10 < t) ->
  login url username password username_field password_field submit_button
    success_indicator s =
  (Ok false,
   mkState (self s) (elapse 10 (elapse 2 w1))
     (stdout s ++ ["Navigating to login page: " ++ url;
                   "Filling in credentials...";
                   "Login failed with error: Message: " ++ nl])
     (clock s + 2 + 10)).
Proof.
  intros Hd Hget Hp.
  assert (Hs : ensure_started s = (Ok tt, s)).
  { rewrite ensure_started_start. exact (start_started_noop s d Hd). }
  rewrite (login_after_start _ _ _ _ _ _ _ s s Hs).
  assert (Hsub : login_submit url username password username_field password_field
                   submit_button s =
                 (Raise (mkExn TimeoutException ("Message: " ++ nl)),
                  mkState (self s) (elapse 10 (elapse 2 w1))
                    (stdout s ++ ["Navigating to login page: " ++ url;
                                  "Filling in credentials..."])
                    (clock s + 2 + 10))).
  { unfold login_submit.
    rewrite (bind_ok _ _ _ _ _ (print_run _ _)).
    rewrite (bind_ok _ _ (printed ("Navigating to login page: " ++ url) s)
               (with_world w1 (printed ("Navigating to login page: " ++ url) s)) tt).
    2: { erewrite on_driver_run by exact Hd. erewrite call_run by exact Hget. reflexivity. }
    rewrite (bind_ok _ _ _ _ _ (time_sleep_run 2 _ ltac:(discriminate) ltac:(discriminate))).
    rewrite (bind_ok _ _ _ _ _ (print_run _ _)).
    erewrite bind_raise.
    2: { erewrite on_driver_run by exact Hd.
         apply WebDriverWait_until_timeout. exact Hp. }
    unfold printed, with_world. simpl. rewrite <- app_assoc. reflexivity. }
  rewrite (bind_raise _ _ _ _ _ Hsub).
  unfold printed, str. simpl. rewrite <- app_assoc. reflexivity.
Qed.

Section FetchingParsing.
Context {Soup Tag : Type} `{BS4 Soup Tag}.

(** X6.  The same failure to load a page is reported in two ways.  On a
    started session, when [driver.get] raises, [login] catches the exception
    and returns false with the exception's text printed, while [scrape_page]
    lets the exception reach its caller; neither has slept. *)
Theorem navigation_failure_caught_by_login_only url username password username_field
    password_field submit_button success_indicator wait_time
    (s : State W) (d : WebDriver) (e : exn) (w1 : W) :
  driver (self s) = Some d ->
  url <> "" ->
  driver_get d url (world s) = (Raise e, w1) ->
  login url username password username_field password_field submit_button
    success_indicator s =
    (Ok false,
     mkState (self s) w1
       (stdout s ++ ["Navigating to login page: " ++ url;
                     "Login failed with error: " ++ str e])
       (clock s)) /\
  scrape_page (Some url) wait_time s =
    (Raise e,
     mkState (self s) w1 (stdout s ++ ["Navigating to: " ++ url]) (clock s)).
Proof.
  intros Hd Hurl Hget.
  assert (Hs : ensure_started s = (Ok tt, s)).
  { rewrite ensure_started_start. exact (start_started_noop s d Hd). }
  split.
  - rewrite (login_after_start _ _ _ _ _ _ _ s s Hs).
    erewrite bind_raise.
    2: { unfold login_submit.
         rewrite (bind_ok _ _ _ _ _ (print_run _ _)).
         apply bind_raise.
         erewrite on_driver_run by exact Hd. erewrite call_run by exact Hget. reflexivity. }
    unfold printed, with_world. simpl. rewrite <- app_assoc. reflexivity.
  - unfold scrape_page. rewrite (bind_ok _ _ _ _ _ Hs).
    assert (Ht : truthy (Some url) = true).
    { simpl. destruct (String.eqb url "") eqn:E; [ | reflexivity].
      apply String.eqb_eq in E. contradiction. }
    rewrite Ht.
    apply bind_raise.
    rewrite (bind_ok _ _ _ _ _ (print_run _ _)).
    erewrite on_driver_run by exact Hd.
    erewrite call_run by exact Hget. reflexivity.
Qed.


(** X8.  A negative [wait_time] makes [scrape_page] raise, and only after
    the navigation: the page has been loaded and the line announcing it
    printed when the call fails.  The exception is the [ValueError] of
    [time.sleep] for every negative length that converts to nanoseconds
    (down to [- 2^63] of them, about -9.22e9 seconds). *)
Theorem scrape_page_negative_wait (url : string) (wait_time : Q)
    (s : State W) (d : WebDriver) (w1 : W) :
  driver (self s) = Some d ->
  url <> "" ->
  driver_get d url (world s) = (Ok tt, w1) ->
  wait_time < 0 ->
  (exists e,
     scrape_page (Some url) wait_time s =
       (Raise e,
        mkState (self s) w1 (stdout s ++ ["Navigating to: " ++ url]) (clock s))) /\
  (min_sleep <= wait_time ->
   scrape_page (Some url) wait_time s =
     (Raise (mkExn ValueError "sleep length must be non-negative"),
      mkState (self s) w1 (stdout s ++ ["Navigating to: " ++ url]) (clock s))).
Proof.
  intros Hd Hurl Hget Hneg.
  assert (Hs : ensure_started s = (Ok tt, s)).
  { rewrite ensure_started_start. exact (start_started_noop s d Hd). }
  unfold scrape_page. rewrite (bind_ok _ _ _ _ _ Hs).
  assert (Ht : truthy (Some url) = true).
  { simpl. destruct (String.eqb url "") eqn:E; [ | reflexivity].
    apply String.eqb_eq in E. contradiction. }
  rewrite Ht.
  erewrite bind_ok.
  2: { rewrite (bind_ok _ _ _ _ _ (print_run _ _)).
       erewrite on_driver_run by exact Hd. erewrite call_run by exact Hget. reflexivity. }
  split.
  - match goal with |- exists e, bind _ _ ?st = _ =>
      destruct (time_sleep_refused wait_time st (or_introl Hneg)) as [e He] end.
    exists e. apply bind_raise. exact He.
  - intro Hmin. apply bind_raise. apply time_sleep_negative; assumption.
Qed.

(** X9.  [extract_data] does not catch: when the selector is rejected the
    exception of [select] reaches the caller and nothing is printed.  When
    the selection returns, the call prints one line, whose count is the
    length of the list it returns.  In both cases the object, the world and
    the clock are as before.  The empty attribute name asks for text: the
    entries are then the stripped texts, not attribute values. *)
Theorem extract_data_effects (soup : Soup) (selector : string)
    (attribute : option string) (s : State W) :
  (forall e, select soup selector = Raise e ->
     extract_data soup selector attribute s = (Raise e, s)) /\
  (forall elements, select soup selector = Ok elements ->
     exists data,
       extract_data soup selector attribute s =
         (Ok data, printed (extracted_line (length data) selector) s) /\
       length data = length elements) /\
  (forall elements, select soup selector = Ok elements ->
     fst (extract_data soup selector (Some "") s) =
       Ok (map (fun elem => PStr (get_text_strip elem)) elements)).
Proof.
  split; [ | split].
  3: { intros elements Hsel.
       rewrite (extract_data_selected soup selector (Some "") elements s Hsel).
       reflexivity. }
  - intros e Hsel. unfold extract_data, bind, lift. rewrite Hsel. reflexivity.
  - intros elements Hsel.
    rewrite (extract_data_selected soup selector attribute elements s Hsel).
    match goal with |- exists data, (Ok ?l, _) = _ /\ _ => set (found := l) end.
    assert (Hlen : length found = length elements).
    { subst found. destruct attribute as [a | ]; [destruct (truthy (Some a)) | ];
        apply length_map. }
    exists found. split; [rewrite Hlen; reflexivity | exact Hlen].
Qed.

End FetchingParsing.

End Fetching.

(** ** Counting with numpy *)

Section Unique.

Lemma insert_unique_In (x z : string) (l : list string) :
  In z (insert_unique x l) <-> z = x \/ In z l.
Proof.
  induction l as [ | y r IH]; simpl.
  - intuition.
  - destruct (String.compare x y) eqn:E; simpl.
    + apply String.compare_eq_iff in E. subst y. intuition.
    + intuition.
    + rewrite IH. intuition.
Qed.

Lemma np_unique_In (z : string) (arr : list string) :
  In z (np_unique arr) <-> In z arr.
Proof.
  induction arr as [ | x arr IH]; simpl.
  - reflexivity.
  - rewrite insert_unique_In, IH. intuition.
Qed.

Lemma insert_unique_sorted (x : string) (l : list string) :
  StronglySorted String_as_OT.lt l ->
  StronglySorted String_as_OT.lt (insert_unique x l).
Proof.
  induction 1 as [ | y r Hs IH Hall]; simpl.
  - constructor; constructor.
  - destruct (String.compare x y) eqn:E.
    + constructor; assumption.
    + apply String_as_OT.cmp_lt in E.
      constructor; [constructor; assumption | ].
      constructor; [exact E | ].
      rewrite Forall_forall in *. intros z Hz.
      eapply String_as_OT.lt_trans; [exact E | apply Hall; exact Hz].
    + constructor; [exact IH | ].
      rewrite Forall_forall in *. intros z Hz.
      apply insert_unique_In in Hz. destruct Hz as [Hz | Hz].
      * subst z. apply String_as_OT.cmp_lt.
        change (String.compare y x = Lt).
        rewrite String.compare_antisym, E. reflexivity.
      * apply Hall. exact Hz.
Qed.

Lemma np_unique_sorted (arr : list string) :
  StronglySorted String_as_OT.lt (np_unique arr).
Proof.
  induction arr as [ | x arr IH]; simpl.
  - constructor.
  - apply insert_unique_sorted. exact IH.
Qed.

Lemma sorted_NoDup (l : list string) :
  StronglySorted String_as_OT.lt l -> NoDup l.
Proof.
  induction 1 as [ | y r Hs IH Hall].
  - constructor.
  - constructor; [ | exact IH].
    intro Hin. rewrite Forall_forall in Hall.
    exact (String_as_OT.lt_not_eq _ _ (Hall y Hin) eq_refl).
Qed.

Lemma np_unique_length (arr : list string) :
  length (np_unique arr) = length (nodup string_dec arr).
Proof.
  apply Permutation.Permutation_length.
  apply Permutation.NoDup_Permutation.
  - apply sorted_NoDup, np_unique_sorted.
  - apply NoDup_nodup.
  - intro z. rewrite np_unique_In, nodup_In. reflexivity.
Qed.

Lemma nodup_length_le (l : list string) :
  (length (nodup string_dec l) <= length l)%nat.
Proof.
  induction l as [ | x l IH]; simpl.
  - apply Nat.le_refl.
  - destruct (in_dec string_dec x l); simpl; lia.
Qed.

End Unique.

Section Numpy.
Context {W : Type} `{Browser W}.

(** X10.  [process_data_with_numpy] returns the array of all its input, in
    the input's order and with its length, not the unique values; an input
    whose strings do not end in NUL comes back unchanged.  Its one printed
    line gives the number of distinct values, sorted and counted once each,
    which is at most the number of items, and the number of items. *)
Theorem process_data_with_numpy_counts (data : list string) (s : State W) :
  exists k,
    process_data_with_numpy data s =
      (Ok (np_array data),
       printed ("Found " ++ str_nat k ++ " unique values out of "
                ++ str_nat (length data) ++ " total items") s) /\
    k = length (nodup string_dec (np_array data)) /\
    (k <= length data)%nat /\
    length (np_array data) = length data /\
    (Forall (fun x => np_str x = x) data -> np_array data = data).
Proof.
  exists (length (np_unique (np_array data))).
  assert (Hlen : length (np_array data) = length data) by apply length_map.
  split; [ | split; [ | split; [ | split]]].
  - unfold process_data_with_numpy, bind, print, ret, printed. simpl.
    rewrite Hlen. reflexivity.
  - apply np_unique_length.
  - rewrite np_unique_length, <- Hlen. apply nodup_length_le.
  - exact Hlen.
  - clear Hlen. intro Hall. unfold np_array.
    induction Hall as [ | x l Hx _ IH]; simpl.
    + reflexivity.
    + rewrite Hx, IH. reflexivity.
Qed.

End Numpy.

(** ** More on the Pacer *)

Section PacerEdges.
Context {W : Type} `{Browser W}.

(** What [wait_random] does, by the draw. *)
Lemma wait_random_cases (lo hi : Q) (s : State W) :
  let t := lo + (hi - lo) * fst (random_sample (world s)) in
  let line := "Waiting for " ++ format_2f t ++ " seconds..." in
  (t < 0 \/ max_sleep < t ->
   exists e,
     wait_random lo hi s =
       (Raise e,
        mkState (self s) (snd (random_sample (world s))) (stdout s ++ [line]) (clock s))) /\
  (t < 0 -> min_sleep <= t ->
   wait_random lo hi s =
     (Raise (mkExn ValueError "sleep length must be non-negative"),
      mkState (self s) (snd (random_sample (world s))) (stdout s ++ [line]) (clock s))) /\
  (0 <= t -> t <= max_sleep ->
   wait_random lo hi s =
     (Ok tt,
      mkState (self s) (elapse t (snd (random_sample (world s))))
        (stdout s ++ [line]) (clock s + t))).
Proof.
  cbv zeta. unfold wait_random, bind, np_random_uniform.
  destruct (random_sample (world s)) as [u w]. cbn [fst snd].
  cbn [print self world stdout clock].
  split; [ | split].
  - intro Ht. apply time_sleep_refused. exact Ht.
  - intros Ht Hmin. apply time_sleep_negative; assumption.
  - intros Ht Hmax. rewrite time_sleep_run by assumption. reflexivity.
Qed.



End PacerEdges.

(** ** The callers: [main] and the examples *)

Section CallerFacts.
Context {W : Type} `{Browser W}.

Lemma printed_all_app (l1 l2 : list string) (s : State W) :
  printed_all l2 (printed_all l1 s) = printed_all (l1 ++ l2) s.
Proof. unfold printed_all. simpl. rewrite <- app_assoc. reflexivity. Qed.

Lemma print_all_run (line : string) (s : State W) :
  print line s = (Ok tt, printed_all [line] s).
Proof. reflexivity. Qed.

Lemma settled_refl (o : WebScraper) : settled o o.
Proof. split; [apply evolves_refl | reflexivity]. Qed.

Lemma settled_trans (o1 o2 o3 : WebScraper) :
  settled o1 o2 -> settled o2 o3 -> settled o1 o3.
Proof.
  intros [He1 Hf1] [He2 Hf2]. split.
  - eapply evolves_trans; eassumption.
  - congruence.
Qed.

Lemma self_kept_settled {A : Type} (m : M W A) : self_kept m -> self_rel settled m.
Proof. intros Hk s. rewrite Hk. apply settled_refl. Qed.

Lemma settled_bind {A B : Type} (m : M W A) (k : A -> M W B) :
  self_rel settled m -> (forall a, self_rel settled (k a)) ->
  self_rel settled (bind m k).
Proof.
  intros Hm Hk s. unfold bind. specialize (Hm s).
  destruct (m s) as [[a | e] s']; simpl in *.
  - eapply settled_trans; [exact Hm | apply Hk].
  - exact Hm.
Qed.

(** The two ways through a [with] statement. *)
Lemma with_outcome {A : Type} (body : M W A) (s : State W) :
  (exists e s1, start s = (Raise e, s1) /\ with_ body s = (Raise e, s1)) \/
  (exists s1, start s = (Ok tt, s1) /\
              with_ body s = (fst (body s1), snd (close (snd (body s1))))).
Proof.
  unfold with_, __enter__, __exit__.
  destruct (start s) as [[[] | e] s1].
  - right. exists s1. split; [reflexivity | ].
    destruct (body s1) as [[a | e] s2]; cbn [fst snd];
      pose proof (close_stopped s2) as [Hc _];
      destruct (close s2) as [[[] | e'] s3]; cbn [fst snd] in *;
      try discriminate; reflexivity.
  - left. exists e, s1. split; reflexivity.
Qed.

(** Once the guard has returned, [login] returns. *)
Lemma login_returns url username password username_field password_field submit_button
    success_indicator (s s0 : State W) :
  ensure_started s = (Ok tt, s0) ->
  exists b s',
    login url username password username_field password_field submit_button
      success_indicator s = (Ok b, s').
Proof.
  intro Hs. rewrite (login_after_start _ _ _ _ _ _ _ s s0 Hs).
  match goal with |- context [match ?b s0 with _ => _ end] =>
    destruct (b s0) as [[b' | e] s1] end; eexists; eexists; reflexivity.
Qed.

(** With bounds that are not negative, in order and not too long,
    [wait_random] returns. *)
Lemma wait_random_returns (lo hi : Q) (s : State W) :
  0 <= lo -> lo <= hi -> hi <= max_sleep -> fst (wait_random lo hi s) = Ok tt.
Proof.
  intros Hlo Hle Hmax.
  destruct (random_sample_range (world s)) as [Hu0 Hu1].
  pose proof (wait_random_cases lo hi s) as (_ & _ & Hok). cbv zeta in Hok.
  rewrite Hok; [reflexivity | nra | nra].
Qed.

Lemma for_each_print_returns {A : Type} (f : A -> string) (l : list A) (s : State W) :
  fst (for_each l (fun x => print (f x)) s) = Ok tt.
Proof.
  revert s. induction l as [ | x l IH]; intro s; simpl.
  - reflexivity.
  - unfold bind. simpl. apply IH.
Qed.

Lemma guarded_example_returns (label : string) (body : M W unit) (s : State W) :
  fst (guarded_example label body s) = Ok tt.
Proof.
  unfold guarded_example, try_except.
  destruct (body s) as [[[] | e] s']; reflexivity.
Qed.

Lemma run_tests_length (tests : list (string * M W bool)) (s s' : State W)
    (results : list (string * bool)) :
  run_tests tests s = (Ok results, s') -> length results = length tests.
Proof.
  revert s s' results. induction tests as [ | [name test] tests IH];
    intros s s' results Hr; simpl in Hr.
  - inversion Hr. reflexivity.
  - unfold bind in Hr.
    destruct (test s) as [[b | e] s1]; [ | discriminate].
    destruct (run_tests tests s1) as [[rs | e] s2] eqn:E; [ | discriminate].
    inversion Hr; subst. simpl. f_equal. exact (IH _ _ _ E).
Qed.

Lemma count_passed_le (results : list (string * bool)) :
  (count_passed results <= length results)%nat.
Proof. unfold count_passed. apply filter_length_le. Qed.

(** All checks passed: the count of the passed ones is the count of all. *)
Lemma count_passed_all (results : list (string * bool)) :
  Nat.eqb (count_passed results) (length results) = forallb snd results.
Proof.
  induction results as [ | [name b] results IH].
  - reflexivity.
  - unfold count_passed in *. simpl. destruct b; simpl.
    + exact IH.
    + apply Nat.eqb_neq.
      pose proof (count_passed_le results). unfold count_passed in *. lia.
Qed.

End CallerFacts.

Section CallerClaims.
Context {W : Type} `{Browser W} {Soup Tag : Type} `{BS4 Soup Tag}.

Lemma scrape_page_settled (url : option string) (wait_time : Q) :
  self_rel settled (W:=W) (scrape_page url wait_time).
Proof.
  intro s. split.
  - apply scrape_page_evolves.
  - apply scrape_page_effect.
Qed.

Lemma scraper_main_body_settled : self_rel settled (W:=W) scraper_main_body.
Proof.
  unfold scraper_main_body.
  apply settled_bind; [apply scrape_page_settled | intro soup].
  apply settled_bind; [apply self_kept_settled, extract_data_self_kept | intro paragraphs].
  apply settled_bind; [apply self_kept_settled; auto with kept | intro].
  apply settled_bind; [ | intro; apply self_kept_settled, wait_random_self_kept].
  destruct paragraphs as [ | p ps].
  - apply self_kept_settled. auto with kept.
  - apply settled_bind; [ | intro; apply self_kept_settled; auto with kept].
    apply self_kept_settled, process_data_with_numpy_self_kept.
Qed.

Lemma scraper_main_run (s : State W) :
  scraper_main s = with_ scraper_main_body (new_session scraper_main_banner s).
Proof.
  unfold scraper_main, bind, print, construct, put_self, new_session, scraper_main_banner.
  simpl. rewrite <- !app_assoc. reflexivity.
Qed.

(** X13.  [main] of [scraper.py] never leaves a browser behind: however the
    fetching and the extraction go, and whether the call returns or raises,
    at its end the object has no driver handle and is not authenticated. *)
Theorem scraper_main_closes_session (s : State W) :
  driver (self (snd (scraper_main s))) = None /\
  session_active (self (snd (scraper_main s))) = false.
Proof.
  rewrite scraper_main_run.
  set (s0 := new_session scraper_main_banner s).
  destruct (with_outcome scraper_main_body s0) as [(e & s1 & Hs & E) | (s1 & Hs & E)];
    rewrite E; cbn [snd].
  - destruct (start_raise_stopped s0 s1 e Hs) as [Hn Hk].
    rewrite Hk. split; reflexivity.
  - destruct (start_ok_started s0 s1 Hs) as (d & Hd & Hf).
    destruct (scraper_main_body_settled s1) as [_ Hflag].
    destruct (close_effect (snd (scraper_main_body s1))) as [Hnone [Hfalse | [_ Esame]]].
    + split; assumption.
    + split; [exact Hnone | ]. rewrite Esame, Hflag, Hf. reflexivity.
Qed.

(** X14.  [main] of [scraper.py] can fail in three places only.  When the
    driver starts, the page is fetched and the selector "p" is accepted,
    [main] returns: counting with numpy and pausing between 1 and 2 seconds
    raise nothing, whatever the paragraphs and the draw are. *)
Theorem scraper_main_returns (s s1 s2 : State W) (soup : Soup) (elements : list Tag) :
  start (new_session scraper_main_banner s) = (Ok tt, s1) ->
  scrape_page (Some "https://example.com") default_wait_time s1 = (Ok soup, s2) ->
  select soup "p" = Ok elements ->
  fst (scraper_main s) = Ok tt.
Proof.
  intros Hs Hpage Hsel.
  rewrite scraper_main_run.
  destruct (with_outcome scraper_main_body (new_session scraper_main_banner s))
    as [(e & s1' & Hs' & _) | (s1' & Hs' & E)]; [congruence | ].
  rewrite E. cbn [fst].
  assert (s1' = s1) by congruence. subst s1'.
  unfold scraper_main_body.
  rewrite (bind_ok _ _ _ _ _ Hpage).
  rewrite (bind_ok _ _ _ _ _ (extract_data_selected soup "p" None elements s2 Hsel)).
  rewrite (bind_ok _ _ _ _ _ (print_run _ _)).
  match goal with |- fst (bind ?m _ ?st) = _ =>
    assert (Hm : exists st', m st = (Ok tt, st')) end.
  { destruct elements as [ | p ps]; simpl.
    - eexists. reflexivity.
    - eexists. reflexivity. }
  destruct Hm as [st' Hm]. rewrite (bind_ok _ _ _ _ _ Hm).
  apply wait_random_returns.
  - discriminate.
  - unfold Qle. simpl. lia.
  - discriminate.
Qed.

Lemma process_page_evolves (page_num : nat) :
  self_rel evolves (W:=W) (process_page page_num).
Proof.
  unfold process_page.
  apply self_rel_bind; [apply self_kept_evolves; auto with kept | intro].
  apply self_rel_bind; [apply scrape_page_evolves | intro soup].
  apply self_rel_bind; [apply extract_data_evolves | intro items].
  apply self_rel_bind; [apply self_kept_evolves; auto with kept | intro].
  apply wait_random_evolves.
Qed.

Lemma scrape_protected_evolves : self_rel evolves (W:=W) scrape_protected.
Proof.
  unfold scrape_protected.
  apply self_rel_bind; [apply self_kept_evolves; auto with kept | intro].
  apply self_rel_bind; [apply scrape_page_evolves | intro soup].
  apply self_rel_bind; [apply extract_data_evolves | intro data].
  apply self_rel_bind; [apply self_kept_evolves; auto with kept | intro].
  apply self_rel_for_each. intro n. apply process_page_evolves.
Qed.

Lemma example_with_login_run (s : State W) :
  example_with_login s =
  (start ;;
   print "Attempting to log in..." ;;
   login_success <- example_login ;;
   (if login_success : bool then scrape_protected else print "✗ Login failed!") ;;
   close) (new_session example_with_login_banner s).
Proof.
  unfold example_with_login, example_login.
  unfold bind at 1 2 3 4 5 6. 
  unfold print, construct, put_self, new_session, example_with_login_banner.
  simpl. rewrite <- !app_assoc. reflexivity.
Qed.

(** X15.  When [login] returns false, [example_with_login] fetches no page:
    it prints that the login failed, closes the session and returns; the
    state it leaves is the one [close] makes of [login]'s, with that one
    line more. *)
Theorem example_with_login_refused (s s1 s2 : State W) :
  start (new_session example_with_login_banner s) = (Ok tt, s1) ->
  example_login (printed "Attempting to log in..." s1) = (Ok false, s2) ->
  example_with_login s = close (printed "✗ Login failed!" s2) /\
  fst (example_with_login s) = Ok tt /\
  driver (self (snd (example_with_login s))) = None.
Proof.
  intros Hs Hl.
  assert (E : example_with_login s = close (printed "✗ Login failed!" s2)).
  { rewrite example_with_login_run.
    rewrite (bind_ok _ _ _ _ _ Hs).
    rewrite (bind_ok _ _ _ _ _ (print_run _ _)).
    rewrite (bind_ok _ _ _ _ _ Hl).
    rewrite (bind_ok _ _ _ _ _ (print_run _ _)).
    reflexivity. }
  rewrite E. split; [reflexivity | apply close_stopped].
Qed.

(** X16.  [example_with_login] closes the session only at its end, outside
    any handler.  When the driver starts and the example then raises, as it
    does when a page fails to load after a successful login, the session is
    left started, with the handle the start gave; the session is closed
    exactly when the example returns. *)
Theorem example_with_login_leaves_session_open (s s1 : State W) :
  start (new_session example_with_login_banner s) = (Ok tt, s1) ->
  (forall e, fst (example_with_login s) = Raise e ->
     driver (self s1) <> None /\
     driver (self (snd (example_with_login s))) = driver (self s1)) /\
  (fst (example_with_login s) = Ok tt ->
     driver (self (snd (example_with_login s))) = None).
Proof.
  intro Hs.
  destruct (start_ok_started _ _ Hs) as (d & Hd & _).
  rewrite example_with_login_run.
  rewrite (bind_ok _ _ _ _ _ Hs).
  rewrite (bind_ok _ _ _ _ _ (print_run _ _)).
  set (s1' := printed "Attempting to log in..." s1).
  assert (Hd' : driver (self s1') = Some d) by exact Hd.
  assert (Hg : ensure_started s1' = (Ok tt, s1')).
  { rewrite ensure_started_start. exact (start_started_noop s1' d Hd'). }
  destruct (login_returns "https://example.com/login" "your_username" "your_password"
              "username" "password" "//button[@type='submit']"
              (Some "//div[@class='dashboard']") s1' s1' Hg) as (b & s2 & Hl).
  pose proof (login_evolves "https://example.com/login" "your_username" "your_password"
                "username" "password" "//button[@type='submit']"
                (Some "//div[@class='dashboard']") s1') as (_ & _ & Hk).
  fold (example_login (W:=W)) in Hl, Hk.
  rewrite (bind_ok _ _ _ _ _ Hl). rewrite Hl in Hk. cbn [snd] in Hk.
  specialize (Hk d Hd').
  assert (Hbranch : driver (self (snd ((if b then scrape_protected
                                       else print "✗ Login failed!") s2))) = Some d).
  { destruct b.
    - apply (scrape_protected_evolves s2). exact Hk.
    - exact Hk. }
  unfold bind.
  destruct ((if b then scrape_protected else print "✗ Login failed!") s2)
    as [[[] | e] s3]; cbn [fst snd] in *.
  - pose proof (close_stopped s3) as [Hc Hn].
    destruct (close s3) as [[[] | e] s4]; cbn [fst snd] in *; try discriminate.
    split; [intros e He; discriminate | intros _; exact Hn].
  - split; [ | discriminate].
    intros e' _. rewrite Hd, Hbranch. split; [discriminate | reflexivity].
Qed.

End CallerClaims.

Section Scripts.
Context {W : Type} `{Browser W}.

(** X17.  [main] of [example.py] never raises.  An exception of the first
    example is caught and printed, and the second example is run all the
    same, in the state the first one left; the closing lines are printed in
    every case. *)
Theorem example_main_never_raises (example_without_login example_advanced_extraction :
    M W unit) (s : State W) :
  let s0 := printed_all example_main_banner s in
  let s1 := snd (guarded_example "Example 1" example_without_login s0) in
  let s2 := snd (guarded_example "Example 2" example_advanced_extraction s1) in
  example_main example_without_login example_advanced_extraction s =
    (Ok tt, printed_all example_main_footer s2) /\
  (forall e s', example_without_login s0 = (Raise e, s') ->
     s1 = printed ("Example 1 error: " ++ str e) s') /\
  (forall e s', example_advanced_extraction s1 = (Raise e, s') ->
     s2 = printed ("Example 2 error: " ++ str e) s').
Proof.
  cbv zeta. split; [ | split].
  - unfold example_main.
    rewrite !(bind_ok _ _ _ _ _ (print_all_run _ _)), !printed_all_app.
    match goal with |- context [guarded_example "Example 1" _ ?st] =>
      change st with (printed_all example_main_banner s) end.
    set (s0 := printed_all example_main_banner s).
    pose proof (guarded_example_returns "Example 1" example_without_login s0) as H1.
    destruct (guarded_example "Example 1" example_without_login s0) as [r1 s1] eqn:E1.
    cbn [fst snd] in *. subst r1. rewrite (bind_ok _ _ _ _ _ E1).
    pose proof (guarded_example_returns "Example 2" example_advanced_extraction s1) as H2.
    destruct (guarded_example "Example 2" example_advanced_extraction s1) as [r2 s2] eqn:E2.
    cbn [fst snd] in *. subst r2. rewrite (bind_ok _ _ _ _ _ E2).
    rewrite !(bind_ok _ _ _ _ _ (print_all_run _ _)), print_all_run, !printed_all_app.
    reflexivity.
  - intros e s' He. unfold guarded_example, try_except. rewrite He. reflexivity.
  - intros e s' He. unfold guarded_example at 1, try_except. rewrite He. reflexivity.
Qed.

(** X18.  [main] of [test_template.py] returns the exit code 0 exactly when
    every one of its six checks returned true, and 1 otherwise; it returns
    one of the two whenever the checks all return. *)
Theorem test_template_main_exit_code (t1 t2 t3 t4 t5 t6 : M W bool) (s s1 : State W)
    (results : list (string * bool)) :
  run_tests
    [("Imports", t1); ("Class Structure", t2); ("Method Signatures", t3);
     ("Features", t4); ("NumPy Integration", t5); ("BeautifulSoup Integration", t6)]
    (printed_all test_template_banner s) = (Ok results, s1) ->
  length results = 6%nat /\
  fst (test_template_main t1 t2 t3 t4 t5 t6 s) =
    Ok (if forallb snd results then 0 else 1)%Z /\
  (fst (test_template_main t1 t2 t3 t4 t5 t6 s) = Ok 0%Z <->
   forall name result, In (name, result) results -> result = true).
Proof.
  intro Hr.
  assert (Hcode : fst (test_template_main t1 t2 t3 t4 t5 t6 s) =
                  Ok (if forallb snd results then 0 else 1)%Z).
  { unfold test_template_main.
    rewrite !(bind_ok _ _ _ _ _ (print_all_run _ _)), !printed_all_app.
    erewrite bind_ok by exact Hr.
    rewrite !(bind_ok _ _ _ _ _ (print_all_run _ _)).
    match goal with |- fst (bind (for_each results ?body) _ ?st) = _ =>
      pose proof (for_each_print_returns
                    (fun r : string * bool =>
                       (if snd r then "✓ PASS" else "✗ FAIL") ++ ": " ++ fst r)
                    results st) as Hf;
      destruct (for_each results body st) as [rf sf] eqn:Ef end.
    cbn [fst] in Hf. subst rf. rewrite (bind_ok _ _ _ _ _ Ef).
    rewrite (bind_ok _ _ _ _ _ (print_all_run _ _)).
    rewrite count_passed_all.
    destruct (forallb snd results); reflexivity. }
  split; [exact (run_tests_length _ _ _ _ Hr) | split; [exact Hcode | ]].
  rewrite Hcode. split.
  - intros Hz name result Hin.
    destruct (forallb snd results) eqn:Hall; [ | discriminate].
    rewrite forallb_forall in Hall. exact (Hall (name, result) Hin).
  - intro Hall.
    assert (Hf : forallb snd results = true).
    { apply forallb_forall. intros [name result] Hin. exact (Hall name result Hin). }
    rewrite Hf. reflexivity.
Qed.

End Scripts.

(** ** The further properties at work on the scripted browser *)

Lemma chrome_options_follow_configuration_witness :
  headless (__init__ true "1280,720") = true /\
  In "--headless" (arguments (chrome_options_of (__init__ true "1280,720"))) /\
  In "--window-size=1280,720" (arguments (chrome_options_of (__init__ true "1280,720"))).
Proof.
  pose proof (chrome_options_follow_configuration (__init__ true "1280,720"))
    as (Hh & Hw & _).
  split; [reflexivity | split; [exact (proj2 Hh eq_refl) | exact Hw]].
Defined.

Lemma start_launches_or_leaves_untouched_witness :
  driver (self sim_offline) = None /\
  driver_manager_install (world sim_offline) =
    (Raise (mkExn OtherException "Could not reach host. Are you offline?"),
     world sim_offline) /\
  start sim_offline =
    (Raise (mkExn OtherException "Could not reach host. Are you offline?"),
     with_world (world sim_offline) sim_offline).
Proof.
  assert (Hn : driver (self sim_offline) = None) by reflexivity.
  assert (Hi : driver_manager_install (world sim_offline) =
               (Raise (mkExn OtherException "Could not reach host. Are you offline?"),
                world sim_offline)) by reflexivity.
  split; [exact Hn | split; [exact Hi | ]].
  exact (proj1 (start_launches_or_leaves_untouched sim_offline Hn) _ _ Hi).
Defined.

Lemma handle_kept_by_all_but_close_witness :
  let m := call_login (Soup:=node) "https://down.example" "user" "secret"
             default_username_field default_password_field default_submit_button None in
  is_close m = false /\
  driver (self sim_started) = Some 0%nat /\
  driver (self (snd (invoke (H0:=Node_BS4 test_parse) m sim_started))) = Some 0%nat.
Proof.
  intro m.
  assert (Hm : is_close m = false) by reflexivity.
  assert (Hd : driver (self sim_started) = Some 0%nat) by reflexivity.
  split; [exact Hm | split; [exact Hd | ]].
  exact (handle_kept_by_all_but_close (H0:=Node_BS4 test_parse) m sim_started 0%nat Hm Hd).
Defined.

Lemma login_username_field_timeout_witness :
  driver (self sim_started) = Some 0%nat /\
  driver_get 0%nat sim_login_url (world sim_started) = (Ok tt, world sim_started) /\
  first_presence 0%nat By_NAME "user_name" (elapse 2 (world sim_started)) = Absent /\
  fst (login sim_login_url "user" "secret" "user_name" default_password_field
         default_submit_button None sim_started) = Ok false.
Proof.
  assert (Hd : driver (self sim_started) = Some 0%nat) by reflexivity.
  assert (Hg : driver_get 0%nat sim_login_url (world sim_started)
               = (Ok tt, world sim_started)) by reflexivity.
  assert (Hp : first_presence 0%nat By_NAME "user_name" (elapse 2 (world sim_started))
               = Absent) by (vm_compute; reflexivity).
  split; [exact Hd | split; [exact Hg | split; [exact Hp | ]]].
  rewrite (login_username_field_timeout sim_login_url "user" "secret" "user_name"
             default_password_field default_submit_button None
             sim_started 0%nat (world sim_started) Hd Hg (or_introl Hp)).
  reflexivity.
Defined.

Lemma navigation_failure_caught_by_login_only_witness :
  driver (self sim_started) = Some 0%nat /\
  "https://down.example" <> "" /\
  driver_get 0%nat "https://down.example" (world sim_started) =
    (Raise (mkExn WebDriverException
              "Message: unknown error: net::ERR_NAME_NOT_RESOLVED"),
     world sim_started) /\
  fst (sim_login "https://down.example" None sim_started) = Ok false /\
  fst (scrape_page (H0:=Node_BS4 test_parse) (Some "https://down.example") 2 sim_started) =
    Raise (mkExn WebDriverException "Message: unknown error: net::ERR_NAME_NOT_RESOLVED").
Proof.
  assert (Hd : driver (self sim_started) = Some 0%nat) by reflexivity.
  assert (Hu : "https://down.example" <> "") by discriminate.
  assert (Hg : driver_get 0%nat "https://down.example" (world sim_started) =
               (Raise (mkExn WebDriverException
                         "Message: unknown error: net::ERR_NAME_NOT_RESOLVED"),
                world sim_started)) by reflexivity.
  destruct (navigation_failure_caught_by_login_only (H0:=Node_BS4 test_parse)
              "https://down.example" "user" "secret" default_username_field
              default_password_field default_submit_button None 2
              sim_started 0%nat _ _ Hd Hu Hg) as [El Es].
  split; [exact Hd | split; [exact Hu | split; [exact Hg | split]]].
  - unfold sim_login. rewrite El. reflexivity.
  - rewrite Es. reflexivity.
Defined.


Lemma scrape_page_negative_wait_witness :
  driver (self sim_started) = Some 0%nat /\
  "https://example.com" <> "" /\
  -1 < 0 /\
  min_sleep <= -1 /\
  fst (scrape_page (H0:=Node_BS4 test_parse) (Some "https://example.com") (-1)
         sim_started) =
    Raise (mkExn ValueError "sleep length must be non-negative").
Proof.
  assert (Hd : driver (self sim_started) = Some 0%nat) by reflexivity.
  assert (Hu : "https://example.com" <> "") by discriminate.
  assert (Hg : driver_get 0%nat "https://example.com" (world sim_started)
               = (Ok tt, world sim_started)) by reflexivity.
  assert (Hn : -1 < 0) by reflexivity.
  assert (Hm : min_sleep <= -1) by discriminate.
  split; [exact Hd | split; [exact Hu | split; [exact Hn | split; [exact Hm | ]]]].
  rewrite (proj2 (scrape_page_negative_wait (H0:=Node_BS4 test_parse)
                    "https://example.com" (-1) sim_started 0%nat _ Hd Hu Hg Hn) Hm).
  reflexivity.
Defined.

Lemma extract_data_effects_witness :
  select (BS4:=Node_BS4 test_parse) test_page "div.content" =
    Raise (mkExn OtherException "Invalid selector: div.content") /\
  extract_data (H0:=Node_BS4 test_parse) test_page "div.content" None sim_state =
    (Raise (mkExn OtherException "Invalid selector: div.content"), sim_state) /\
  select (BS4:=Node_BS4 test_parse) test_page "a" = Ok [test_a1; test_a2] /\
  fst (extract_data (H0:=Node_BS4 test_parse) test_page "a" (Some "") sim_state) =
    Ok [PStr "Link 1"; PStr "Link 2"].
Proof.
  assert (Hbad : select (BS4:=Node_BS4 test_parse) test_page "div.content" =
                 Raise (mkExn OtherException "Invalid selector: div.content"))
    by reflexivity.
  assert (Hsel : select (BS4:=Node_BS4 test_parse) test_page "a" = Ok [test_a1; test_a2])
    by reflexivity.
  pose proof (extract_data_effects (H0:=Node_BS4 test_parse) test_page "div.content" None
                sim_state) as (Hraise & _ & _).
  pose proof (extract_data_effects (H0:=Node_BS4 test_parse) test_page "a" None
                sim_state) as (_ & _ & Htext).
  split; [exact Hbad | split; [exact (Hraise _ Hbad) | split; [exact Hsel | ]]].
  rewrite (Htext _ Hsel). reflexivity.
Defined.

(** The sample of [test_numpy_usage]: three distinct values among four. *)
Lemma process_data_with_numpy_counts_witness :
  Forall (fun x => np_str x = x) ["item1"; "item2"; "item3"; "item1"] /\
  process_data_with_numpy ["item1"; "item2"; "item3"; "item1"] sim_state =
    (Ok ["item1"; "item2"; "item3"; "item1"],
     printed "Found 3 unique values out of 4 total items" sim_state).
Proof.
  assert (Hall : Forall (fun x => np_str x = x) ["item1"; "item2"; "item3"; "item1"])
    by (repeat constructor).
  split; [exact Hall | ].
  destruct (process_data_with_numpy_counts ["item1"; "item2"; "item3"; "item1"] sim_state)
    as (k & E & Hk & _ & _ & Hsame).
  rewrite E, Hk, (Hsame Hall). reflexivity.
Defined.



Lemma scraper_main_returns_witness :
  let s1 := snd (start (new_session scraper_main_banner sim_state)) in
  let s2 := snd (scrape_page (H0:=Node_BS4 test_parse) (Some "https://example.com")
                   default_wait_time s1) in
  start (new_session scraper_main_banner sim_state) = (Ok tt, s1) /\
  scrape_page (H0:=Node_BS4 test_parse) (Some "https://example.com") default_wait_time s1 =
    (Ok test_page, s2) /\
  select (BS4:=Node_BS4 test_parse) test_page "p" = Ok [test_p1; test_p2] /\
  fst (scraper_main (H0:=Node_BS4 test_parse) sim_state) = Ok tt.
Proof.
  intros s1 s2.
  assert (Hs : start (new_session scraper_main_banner sim_state) = (Ok tt, s1))
    by (vm_compute; reflexivity).
  assert (Hp : scrape_page (H0:=Node_BS4 test_parse) (Some "https://example.com")
                 default_wait_time s1 = (Ok test_page, s2)) by (vm_compute; reflexivity).
  assert (Hsel : select (BS4:=Node_BS4 test_parse) test_page "p" = Ok [test_p1; test_p2])
    by reflexivity.
  split; [exact Hs | split; [exact Hp | split; [exact Hsel | ]]].
  exact (scraper_main_returns (H0:=Node_BS4 test_parse) sim_state s1 s2 test_page
           [test_p1; test_p2] Hs Hp Hsel).
Defined.

(** The dashboard needs 40 seconds: the login is refused and nothing is
    fetched. *)
Lemma example_with_login_refused_witness :
  let s := sim_site_state 40 [] in
  let s1 := snd (start (new_session example_with_login_banner s)) in
  let s2 := snd (example_login (printed "Attempting to log in..." s1)) in
  start (new_session example_with_login_banner s) = (Ok tt, s1) /\
  example_login (printed "Attempting to log in..." s1) = (Ok false, s2) /\
  fst (example_with_login (H0:=Node_BS4 test_parse) s) = Ok tt /\
  driver (self (snd (example_with_login (H0:=Node_BS4 test_parse) s))) = None.
Proof.
  intros s s1 s2.
  assert (Hs : start (new_session example_with_login_banner s) = (Ok tt, s1))
    by (vm_compute; reflexivity).
  assert (Hl : example_login (printed "Attempting to log in..." s1) = (Ok false, s2))
    by (vm_compute; reflexivity).
  split; [exact Hs | split; [exact Hl | ]].
  exact (proj2 (example_with_login_refused (H0:=Node_BS4 test_parse) s s1 s2 Hs Hl)).
Defined.

(** The login succeeds and the protected page does not load: the example
    raises and the browser stays. *)
Lemma example_with_login_leaves_session_open_witness :
  let s := sim_site_state 0 ["https://example.com/protected-page"] in
  let s1 := snd (start (new_session example_with_login_banner s)) in
  start (new_session example_with_login_banner s) = (Ok tt, s1) /\
  fst (example_with_login (H0:=Node_BS4 test_parse) s) =
    Raise (mkExn WebDriverException "Message: unknown error: net::ERR_NAME_NOT_RESOLVED") /\
  driver (self (snd (example_with_login (H0:=Node_BS4 test_parse) s))) = driver (self s1) /\
  driver (self s1) <> None.
Proof.
  intros s s1.
  assert (Hs : start (new_session example_with_login_banner s) = (Ok tt, s1))
    by (vm_compute; reflexivity).
  assert (Hr : fst (example_with_login (H0:=Node_BS4 test_parse) s) =
               Raise (mkExn WebDriverException
                        "Message: unknown error: net::ERR_NAME_NOT_RESOLVED"))
    by (vm_compute; reflexivity).
  destruct (proj1 (example_with_login_leaves_session_open (H0:=Node_BS4 test_parse)
                     s s1 Hs) _ Hr) as [Hsome Hsame].
  split; [exact Hs | split; [exact Hr | split; [exact Hsame | exact Hsome]]].
Defined.

Lemma example_main_never_raises_witness :
  let boom : M Sim unit := raise (mkExn OtherException "boom") in
  boom (printed_all example_main_banner sim_state) =
    (Raise (mkExn OtherException "boom"), printed_all example_main_banner sim_state) /\
  fst (example_main boom (print "second example") sim_state) = Ok tt /\
  snd (guarded_example "Example 1" boom (printed_all example_main_banner sim_state)) =
    printed "Example 1 error: boom" (printed_all example_main_banner sim_state).
Proof.
  intro boom.
  assert (Hb : boom (printed_all example_main_banner sim_state) =
               (Raise (mkExn OtherException "boom"),
                printed_all example_main_banner sim_state)) by reflexivity.
  pose proof (example_main_never_raises boom (print "second example") sim_state)
    as (E & H1 & _).
  cbv zeta in E, H1.
  split; [exact Hb | split].
  - rewrite E. reflexivity.
  - exact (H1 _ _ Hb).
Defined.

Lemma test_template_main_exit_code_witness :
  let yes : M Sim bool := ret true in
  let no : M Sim bool := ret false in
  run_tests
    [("Imports", yes); ("Class Structure", yes); ("Method Signatures", yes);
     ("Features", no); ("NumPy Integration", yes); ("BeautifulSoup Integration", yes)]
    (printed_all test_template_banner sim_state) =
    (Ok [("Imports", true); ("Class Structure", true); ("Method Signatures", true);
         ("Features", false); ("NumPy Integration", true);
         ("BeautifulSoup Integration", true)],
     printed_all test_template_banner sim_state) /\
  fst (test_template_main yes yes yes no yes yes sim_state) = Ok 1%Z.
Proof.
  intros yes no.
  assert (Hr : run_tests
            [("Imports", yes); ("Class Structure", yes); ("Method Signatures", yes);
             ("Features", no); ("NumPy Integration", yes);
             ("BeautifulSoup Integration", yes)]
            (printed_all test_template_banner sim_state) =
          (Ok [("Imports", true); ("Class Structure", true); ("Method Signatures", true);
               ("Features", false); ("NumPy Integration", true);
               ("BeautifulSoup Integration", true)],
           printed_all test_template_banner sim_state)) by reflexivity.
  split; [exact Hr | ].
  exact (proj1 (proj2 (test_template_main_exit_code yes yes yes no yes yes sim_state _ _ Hr))).
Defined.

(** The limits of [time.sleep]: lengths beyond 64-bit nanoseconds are
    refused with [OverflowError], on either side, before the sign is
    looked at. *)
Example time_sleep_limits_run :
  fst (time_sleep 9200000000 sim_state) = Ok tt /\
  fst (time_sleep 9300000000 sim_state) =
    Raise (mkExn OverflowError "timestamp too large to convert to C _PyTime_t") /\
  fst (time_sleep (-9200000000) sim_state) =
    Raise (mkExn ValueError "sleep length must be non-negative") /\
  fst (time_sleep (-9300000000) sim_state) =
    Raise (mkExn OverflowError "timestamp too large to convert to C _PyTime_t") /\
  raised (fst (wait_random 10000000000 10000000000 sim_state)) = true.
Proof. vm_compute. repeat split. Qed.
